(** * unienv: runtime dispatch and version gating of [src/index.ts]

    A shallow embedding of the three handler tables ([setRuntimeMap],
    [getRuntimeMap], [deleteRuntimeMap]) and of the [UniEnv] facade.

    [index.ts] imports its collaborators from [utils.ts], [types.ts] and
    [commons.ts].  They are taken as parameters of the development: every
    handler is a computation over an arbitrary host world [W], and every
    collaborator call is recorded in a trace, so that statements about
    "which collaborator was called, how often and in which order" are
    statements about the value the handler computes. *)

From Stdlib Require Import String Ascii List Bool NArith Lia.
From Stdlib Require Import Decimal DecimalFacts DecimalPos DecimalN DecimalString.
From stdpp Require Import base option gmap strings.
Import ListNotations.

Local Open Scope string_scope.
Local Open Scope list_scope.

(** ** Values of [types.ts] *)

(** [Result<T, E>] with its two classes [Ok] and [Ng]. *)
Inductive Result (T E : Type) : Type :=
| Ok (value : T)
| Ng (error : E).
Arguments Ok {T E} value.
Arguments Ng {T E} error.

(** [Maybe<string>]: the adapter's answer for a key, absent or present. *)
Definition Maybe (A : Type) : Type := option A.

(** ** Errors *)

(** [versionErrorProp], lines 6-9. *)
Record versionRange : Type := { require : string; current : string }.
Record versionErrorProp : Type := { runtime : string; version : versionRange }.

(** The two error classes a handler wraps into [Ng]: [new VersionError(prop)]
    (lines 11-20) and [new Error(message)]. *)
Inductive JsError : Type :=
| VersionError (prop : versionErrorProp)
| Error (message : string).

(** The template literal of line 16. *)
Definition errorText (prop : versionErrorProp) : string :=
  runtime prop ++ " version " ++ require (version prop)
    ++ " or higher is required. Current version: " ++ current (version prop).

Definition message (e : JsError) : string :=
  match e with
  | VersionError prop => errorText prop
  | Error m => m
  end.

Definition name (e : JsError) : string :=
  match e with
  | VersionError _ => "VersionError"
  | Error _ => "Error"
  end.

(** What a collaborator throws: an [Error] object of some class.  The
    handlers read its [message] only (the casts [(e as Error).message]).
    The module [Raw] further down drops that assumption and lets a
    collaborator throw any value. *)
Record Thrown : Type := { thrown_name : string; thrown_message : string }.

(** ** Collaborator calls and their trace *)

Inductive call : Type :=
| CallEnvSet (key value : string)
| CallEnvGet (key : string)
| CallEnvDelete (key : string)
| CallLoadEnvIfNeeded
| CallPermissions (capability : string).

(** One collaborator call: what was called and, when it threw, what. *)
Record event : Type := { ev_call : call; ev_thrown : option Thrown }.

Definition is_adapter_call (c : call) : bool :=
  match c with
  | CallEnvSet _ _ | CallEnvGet _ | CallEnvDelete _ => true
  | _ => false
  end.

Definition is_permission_call (c : call) : bool :=
  match c with CallPermissions _ => true | _ => false end.

(** ** The computation monad: host world, trace, exceptions *)

Section Monad.
Context {W : Type}.

Record state : Type := { world : W; trace : list event }.

Definition outcome (A : Type) : Type := (Thrown + A) * state.

Definition M (A : Type) : Type := state -> outcome A.

Definition ret {A} (a : A) : M A := fun s => (inr a, s).

Definition bind {A B} (m : M A) (k : A -> M B) : M B :=
  fun s => match m s with
           | (inr a, s') => k a s'
           | (inl e, s') => (inl e, s')
           end.

(** [try { m } catch (e) { h e }]. *)
Definition try_catch {A} (m : M A) (h : Thrown -> M A) : M A :=
  fun s => match m s with
           | (inr a, s') => (inr a, s')
           | (inl e, s') => h e s'
           end.

(** A call of the collaborator [f]: it acts on the world, returns or
    throws, and the call is appended to the trace either way. *)
Definition perform {A} (c : call) (f : W -> (Thrown + A) * W) : M A :=
  fun s =>
    let (r, w') := f (world s) in
    (r, {| world := w';
           trace := trace s ++
             [{| ev_call := c;
                 ev_thrown := match r with inl e => Some e | inr _ => None end |}] |}).

(** A handler started in world [w] with an empty trace. *)
Definition run {A} (m : M A) (w : W) : outcome A :=
  m {| world := w; trace := [] |}.

(** The calls a computation has made, in order. *)
Definition calls (s : state) : list call := List.map ev_call (trace s).

End Monad.
Arguments state W : clear implicits.
Arguments outcome W A : clear implicits.
Arguments M W A : clear implicits.

Notation "x <- m ;; k" := (bind m (fun x => k))
  (at level 100, m at next level, right associativity).
Notation "'attempt' m 'catch' e => h" := (try_catch m (fun e => h))
  (at level 100, m at level 0, e name, h at level 100).

(** ** The collaborators of [index.ts] *)

(** Everything [index.ts] imports or reads from the host.  [W] is the state
    of the host process (its environment table, the loader's memory, the
    permission state, ...). *)
Record Host (W : Type) : Type := {
  (** [RuntimeName] of [commons.ts]. *)
  RuntimeName : string;
  (** [Commons.runtime.version()]. *)
  Commons_runtime_version : versionRange;
  (** [Commons.env.set], [Commons.env.get], [Commons.env.delete]. *)
  Commons_env_set : string -> string -> W -> (Thrown + unit) * W;
  Commons_env_get : string -> W -> (Thrown + Maybe string) * W;
  Commons_env_delete : string -> W -> (Thrown + unit) * W;
  (** [Commons.permissions({ name })]. *)
  Commons_permissions : string -> W -> (Thrown + string) * W;
  (** [Utils.loadEnvIfNeeded()]. *)
  Utils_loadEnvIfNeeded : W -> (Thrown + unit) * W;
  (** [Utils.ucFirst] and [Utils.versioning.moreThan]. *)
  Utils_ucFirst : string -> string;
  Utils_versioning_moreThan : string -> string -> bool;
  (** [process.execArgv]. *)
  process_execArgv : list string
}.
Arguments RuntimeName {W} _.
Arguments Commons_runtime_version {W} _.
Arguments Commons_env_set {W} _ _ _ _.
Arguments Commons_env_get {W} _ _ _.
Arguments Commons_env_delete {W} _ _.
Arguments Commons_permissions {W} _ _ _.
Arguments Utils_loadEnvIfNeeded {W} _ _.
Arguments Utils_ucFirst {W} _ _.
Arguments Utils_versioning_moreThan {W} _ _ _.
Arguments process_execArgv {W} _.

(** The world a recorded call leaves behind, and the world a sequence of
    recorded calls leaves behind. *)
Definition effect_of {W} (H : Host W) (c : call) (w : W) : W :=
  match c with
  | CallEnvSet key value => snd (Commons_env_set H key value w)
  | CallEnvGet key => snd (Commons_env_get H key w)
  | CallEnvDelete key => snd (Commons_env_delete H key w)
  | CallLoadEnvIfNeeded => snd (Utils_loadEnvIfNeeded H w)
  | CallPermissions capability => snd (Commons_permissions H capability w)
  end.

Definition replay {W} (H : Host W) (cs : list call) (w : W) : W :=
  List.fold_left (fun w c => effect_of H c w) cs w.

(** ** Property lookup on an object literal *)

(** The own properties of [Object.prototype], which every object literal
    inherits: [table[key]] finds them when [key] is not an own property. *)
Definition Object_prototype : list string :=
  [ "constructor"; "__defineGetter__"; "__defineSetter__"; "hasOwnProperty";
    "__lookupGetter__"; "__lookupSetter__"; "isPrototypeOf";
    "propertyIsEnumerable"; "toString"; "valueOf"; "__proto__";
    "toLocaleString" ].

Inductive property (F : Type) : Type :=
| OwnProperty (f : F)
| InheritedProperty (key : string)
| NoProperty.
Arguments OwnProperty {F} f.
Arguments InheritedProperty {F} key.
Arguments NoProperty {F}.

(** [table[key]] for an object literal whose own properties are [own]. *)
Definition get_property {F} (own : gmap string F) (key : string) : property F :=
  match own !! key with
  | Some f => OwnProperty f
  | None =>
      if List.existsb (String.eqb key) Object_prototype
      then InheritedProperty key
      else NoProperty
  end.

(** What [table[RuntimeName]?.(args)] evaluates to: the value the handler
    returned; [undefined] when there is no such property; or, when the
    property is a member of [Object.prototype], whatever calling that member
    gives (a value that is no [Result], or a [TypeError] for the member
    [__proto__], which is not a function); no handler runs then. *)
Inductive optional_call (R : Type) : Type :=
| Returned (r : R)
| Undefined
| InheritedMember (key : string).
Arguments Returned {R} r.
Arguments Undefined {R}.
Arguments InheritedMember {R} key.

(** ** [index.ts] *)

Section Index.
Context {W : Type} (H : Host W).

(** Lines 22-24, the module constant [runtime]. *)
Definition runtime_ : string :=
  Utils_ucFirst H
    (if String.eqb (RuntimeName H) "node" then RuntimeName H ++ ".js"
     else RuntimeName H).

(** Lines 25-28, the module constant [version]. *)
Definition version_ : versionRange :=
  {| require := require (Commons_runtime_version H);
     current := current (Commons_runtime_version H) |}.

(** Lines 29-32. *)
Definition genericVersionError : versionErrorProp :=
  {| runtime := runtime_; version := version_ |}.

(** Lines 33-36. *)
Definition nodeVersionError : versionErrorProp :=
  {| runtime := runtime_;
     version := {| require := "20.6.0"; current := current version_ |} |}.

(** Lines 37-40. *)
Definition isSatisfiesVersion : bool :=
  Utils_versioning_moreThan H (require version_) (current version_).

(** The collaborator calls, recorded. *)
Definition env_set (key value : string) : M W unit :=
  perform (CallEnvSet key value) (Commons_env_set H key value).

Definition env_get (key : string) : M W (Maybe string) :=
  perform (CallEnvGet key) (Commons_env_get H key).

Definition env_delete (key : string) : M W unit :=
  perform (CallEnvDelete key) (Commons_env_delete H key).

Definition loadEnvIfNeeded : M W unit :=
  perform CallLoadEnvIfNeeded (Utils_loadEnvIfNeeded H).

Definition permissions (capability : string) : M W string :=
  perform (CallPermissions capability) (Commons_permissions H capability).

(** *** [setRuntimeMap], lines 42-94 *)

Definition set_handler : Type := string -> string -> M W (Result unit JsError).
Definition get_handler : Type := string -> M W (Result (Maybe string) JsError).
Definition delete_handler : Type := string -> M W (Result unit JsError).

Definition setRuntimeMap_node : set_handler := fun key value =>
  if negb isSatisfiesVersion then ret (Ng (VersionError genericVersionError))
  else
    attempt (u <- env_set key value ;; ret (Ok u))
    catch e => ret (Ng (Error (thrown_message e))).

Definition setRuntimeMap_bun : set_handler := fun key value =>
  if negb isSatisfiesVersion then ret (Ng (VersionError genericVersionError))
  else
    attempt (u <- env_set key value ;; ret (Ok u))
    catch e => ret (Ng (Error (thrown_message e))).

Definition setRuntimeMap_deno : set_handler := fun key value =>
  if negb isSatisfiesVersion then ret (Ng (VersionError genericVersionError))
  else
    attempt (u <- env_set key value ;; ret (Ok u))
    catch e => ret (Ng (Error (thrown_message e))).

Definition setRuntimeMap : gmap string set_handler :=
  <["node" := setRuntimeMap_node]>
    (<["bun" := setRuntimeMap_bun]> ({["deno" := setRuntimeMap_deno]})).

(** *** [getRuntimeMap], lines 96-157 *)

(** Lines 106-108: the arguments that start with [--env-file=]. *)
Definition envFileSpecified : list string :=
  List.filter (fun execArg => String.prefix "--env-file=" execArg)
              (process_execArgv H).

Definition getRuntimeMap_node : get_handler := fun key =>
  if negb isSatisfiesVersion then ret (Ng (VersionError genericVersionError))
  else if negb (Nat.eqb (List.length envFileSpecified) 0) then
    attempt (r <- env_get key ;; ret (Ok r))
    catch _e => ret (Ng (VersionError nodeVersionError))
  else
    attempt (_ <- loadEnvIfNeeded ;; r <- env_get key ;; ret (Ok r))
    catch e => ret (Ng (Error (thrown_message e))).

Definition getRuntimeMap_bun : get_handler := fun key =>
  if negb isSatisfiesVersion then ret (Ng (VersionError genericVersionError))
  else
    attempt (r <- env_get key ;; ret (Ok r))
    catch e => ret (Ng (Error (thrown_message e))).

Definition getRuntimeMap_deno : get_handler := fun key =>
  if negb isSatisfiesVersion then ret (Ng (VersionError genericVersionError))
  else
    attempt (permission <- permissions "read" ;;
             _ <- (if String.eqb permission "granted" then loadEnvIfNeeded
                   else ret tt) ;;
             r <- env_get key ;;
             ret (Ok r))
    catch e => ret (Ng (Error (thrown_message e))).

Definition getRuntimeMap : gmap string get_handler :=
  <["node" := getRuntimeMap_node]>
    (<["bun" := getRuntimeMap_bun]> ({["deno" := getRuntimeMap_deno]})).

(** *** [deleteRuntimeMap], lines 159-208 *)

Definition deleteRuntimeMap_node : delete_handler := fun key =>
  if negb isSatisfiesVersion then ret (Ng (VersionError genericVersionError))
  else
    attempt (u <- env_delete key ;; ret (Ok u))
    catch e => ret (Ng (Error (thrown_message e))).

Definition deleteRuntimeMap_bun : delete_handler := fun key =>
  if negb isSatisfiesVersion then ret (Ng (VersionError genericVersionError))
  else
    attempt (u <- env_delete key ;; ret (Ok u))
    catch e => ret (Ng (Error (thrown_message e))).

Definition deleteRuntimeMap_deno : delete_handler := fun key =>
  if negb isSatisfiesVersion then ret (Ng (VersionError genericVersionError))
  else
    attempt (u <- env_delete key ;; ret (Ok u))
    catch e => ret (Ng (Error (thrown_message e))).

Definition deleteRuntimeMap : gmap string delete_handler :=
  <["node" := deleteRuntimeMap_node]>
    (<["bun" := deleteRuntimeMap_bun]> ({["deno" := deleteRuntimeMap_deno]})).

(** *** [UniEnv], lines 210-242 *)

(** [table[RuntimeName]?.(...)]: the call [invoke] of the property found. *)
Definition optional_dispatch {F R} (table : gmap string F) (invoke : F -> M W R)
  : M W (optional_call R) :=
  match get_property table (RuntimeName H) with
  | OwnProperty f => r <- invoke f ;; ret (Returned r)
  | InheritedProperty key => ret (InheritedMember key)
  | NoProperty => ret Undefined
  end.

Definition UniEnv_set (key value : string) : M W (optional_call (Result unit JsError)) :=
  optional_dispatch setRuntimeMap (fun handler => handler key value).

Definition UniEnv_get (key : string) : M W (optional_call (Result (Maybe string) JsError)) :=
  optional_dispatch getRuntimeMap (fun handler => handler key).

Definition UniEnv_delete (key : string) : M W (optional_call (Result unit JsError)) :=
  optional_dispatch deleteRuntimeMap (fun handler => handler key).

End Index.

(** ** The helpers of [utils.ts], from their description *)

Module Utils.

(** One decimal digit. *)
Definition digit_of (c : ascii) : option N :=
  let n := N_of_ascii c in
  if andb (N.leb 48 n) (N.leb n 57) then Some (n - 48)%N else None.

(** The digits of [s] read as a number in base ten, most significant first,
    after the digits already read ([acc]). *)
Fixpoint digits_value (s : string) (acc : N) : option N :=
  match s with
  | EmptyString => Some acc
  | String c s' =>
      match digit_of c with
      | Some d => digits_value s' (10 * acc + d)%N
      | None => None
      end
  end.

(** A version component as an integer; [None] when it is no run of digits. *)
Definition to_number (s : string) : option N :=
  match s with
  | EmptyString => None
  | _ => digits_value s 0%N
  end.

(** [s.split(sep)]. *)
Fixpoint split (sep : ascii) (s : string) : list string :=
  match s with
  | EmptyString => [EmptyString]
  | String c s' =>
      if Ascii.eqb c sep then EmptyString :: split sep s'
      else match split sep s' with
           | piece :: pieces => String c piece :: pieces
           | [] => [String c EmptyString]
           end
  end.

(** [MAJOR.MINOR.PATCH] as three integers. *)
Definition parse_version (s : string) : option (N * N * N) :=
  match split "." s with
  | [major; minor; patch] =>
      match to_number major, to_number minor, to_number patch with
      | Some a, Some b, Some c => Some (a, b, c)
      | _, _, _ => None
      end
  | _ => None
  end.

(** Modelled from the spec: [Utils.versioning.moreThan] of [utils.ts], which
    is not among the sources.  Given [(require, current)] in
    [MAJOR.MINOR.PATCH] form it answers whether [current] is greater than or
    equal to [require], major compared first, then minor, then patch, each
    as an integer.  Malformed input is outside its contract; the model
    answers [false] there. *)
Definition moreThan (require current : string) : bool :=
  match parse_version require, parse_version current with
  | Some (rmajor, rminor, rpatch), Some (cmajor, cminor, cpatch) =>
      if N.ltb rmajor cmajor then true
      else if N.ltb cmajor rmajor then false
      else if N.ltb rminor cminor then true
      else if N.ltb cminor rminor then false
      else N.leb rpatch cpatch
  | _, _ => false
  end.

(** Modelled from the spec: [Utils.ucFirst] of [utils.ts], which is not among
    the sources: "the runtime identifier capitalized", the first character
    in upper case and the rest as it is. *)
Definition ucFirst (s : string) : string :=
  match s with
  | EmptyString => EmptyString
  | String c s' =>
      let n := N_of_ascii c in
      String (if andb (N.leb 97 n) (N.leb n 122) then ascii_of_N (n - 32) else c) s'
  end.

End Utils.

(** A well-formed version string: three integers in decimal, dot-separated. *)
Definition decimal (n : N) : string := NilEmpty.string_of_uint (N.to_uint n).

Definition version_string (v : N * N * N) : string :=
  let '(major, minor, patch) := v in
  decimal major ++ "." ++ decimal minor ++ "." ++ decimal patch.

(** [v1] is at most [v2]: major first, then minor, then patch. *)
Definition version_le (v1 v2 : N * N * N) : Prop :=
  let '(a1, b1, c1) := v1 in
  let '(a2, b2, c2) := v2 in
  (a1 < a2 \/ (a1 = a2 /\ (b1 < b2 \/ (b1 = b2 /\ c1 <= c2))))%N.

(** ** The environment table and the env-file loader, from their description *)

(** The host process: its environment table and whatever else the loader
    and the permission gate keep ([memory]). *)
Record Process (A : Type) : Type := { table : gmap string string; memory : A }.
Arguments table {A} _.
Arguments memory {A} _.

Section Store.
Context {A : Type}.

(** Modelled from the spec: the Environment Store Adapter ([Commons.env] of
    [commons.ts], which is not among the sources): "primitive operations
    get(key), set(key, value), delete(key) against the host's native
    environment table", a process-wide key-value table; [get] answers absent
    for a key that is not set. *)
Definition store_set (key value : string) (p : Process A) : (Thrown + unit) * Process A :=
  (inr tt, {| table := <[key := value]> (table p); memory := memory p |}).

Definition store_get (key : string) (p : Process A) : (Thrown + Maybe string) * Process A :=
  (inr (table p !! key), p).

Definition store_delete (key : string) (p : Process A) : (Thrown + unit) * Process A :=
  (inr tt, {| table := delete key (table p); memory := memory p |}).

(** A host whose store adapter is the table; the loader and the permission
    gate are left open. *)
Definition TableHost (name : string) (v : versionRange) (argv : list string)
    (gate : string -> Process A -> (Thrown + string) * Process A)
    (loader : Process A -> (Thrown + unit) * Process A) : Host (Process A) :=
  {| RuntimeName := name;
     Commons_runtime_version := v;
     Commons_env_set := store_set;
     Commons_env_get := store_get;
     Commons_env_delete := store_delete;
     Commons_permissions := gate;
     Utils_loadEnvIfNeeded := loader;
     Utils_ucFirst := Utils.ucFirst;
     Utils_versioning_moreThan := Utils.moreThan;
     process_execArgv := argv |}.

End Store.

(** Modelled from the spec: the Conditional Env-File Loader
    ([Utils.loadEnvIfNeeded] of [utils.ts], which is not among the sources):
    "on-demand parsing/loading of a .env file into the environment store",
    idempotent.  [file] is the parsed file; the memory of the process says
    whether it has been loaded; a variable that is already set is kept. *)
Definition load_file (file : list (string * string)) (p : Process bool)
  : (Thrown + unit) * Process bool :=
  if memory p then (inr tt, p)
  else (inr tt,
        {| table := List.fold_right
                      (fun kv t => match t !! fst kv with
                                   | Some _ => t
                                   | None => <[fst kv := snd kv]> t
                                   end)
                      (table p) file;
           memory := true |}).

(** A loader that finds no file to read. *)
Definition load_missing (p : Process bool) : (Thrown + unit) * Process bool :=
  (inl {| thrown_name := "Error";
          thrown_message := "ENOENT: no such file or directory, open '.env'" |}, p).

(** A permission gate with a fixed answer. *)
Definition gate_answers {A} (answer : string) (capability : string) (p : Process A)
  : (Thrown + string) * Process A :=
  (inr answer, p).

(** A store adapter whose every primitive throws [boom]. *)
Definition boom : Thrown := {| thrown_name := "Error"; thrown_message := "boom" |}.

Definition BoomHost (name : string) (v : versionRange) (argv : list string)
    (answer : string) : Host (Process bool) :=
  {| RuntimeName := name;
     Commons_runtime_version := v;
     Commons_env_set := fun _ _ p => (inl boom, p);
     Commons_env_get := fun _ p => (inl boom, p);
     Commons_env_delete := fun _ p => (inl boom, p);
     Commons_permissions := gate_answers answer;
     Utils_loadEnvIfNeeded := load_file [];
     Utils_ucFirst := Utils.ucFirst;
     Utils_versioning_moreThan := Utils.moreThan;
     process_execArgv := argv |}.

(** A fresh process: nothing set, nothing loaded. *)
Definition fresh : Process bool := {| table := ∅; memory := false |}.

Definition new_enough : versionRange := {| require := "18.0.0"; current := "20.11.1" |}.
Definition too_old : versionRange := {| require := "18.0.0"; current := "16.20.2" |}.

(** ** Sequences of facade calls *)

(** One facade call after another: the second starts in the world the first
    left. *)
Definition and_then {W A B} (m : M W A) (k : M W B) : M W B := _ <- m ;; k.

(** The value a facade call returned, when it returned one. *)
Definition value_of {W A} (o : outcome W A) : option A :=
  match fst o with inr a => Some a | inl _ => None end.

(** ** Notions used in the statements *)

(** The runtimes of the tables. *)
Definition runtimes : list string := ["node"; "bun"; "deno"].

(** What "atomic from the caller's point of view" says of the outcome [o]
    of a handler started in world [w]: the handler returned a [Result] (no
    exception left it); the world it leaves is the world its recorded
    collaborator calls leave, nothing more; a success means that every call
    returned and that the last one, and only that one, was an adapter
    primitive; a failure means that no call was made at all, or that the
    last call is the one that threw and every call before it returned. *)
Definition atomic {W A} (H : Host W) (w : W) (o : outcome W (Result A JsError)) : Prop :=
  exists r, fst o = inr r /\
    world (snd o) = replay H (calls (snd o)) w /\
    match r with
    | Ok _ =>
        Forall (fun ev => ev_thrown ev = None) (trace (snd o)) /\
        exists before ev,
          trace (snd o) = before ++ [ev] /\
          is_adapter_call (ev_call ev) = true /\
          Forall (fun ev' => is_adapter_call (ev_call ev') = false) before
    | Ng _ =>
        trace (snd o) = [] \/
        exists before ev t,
          trace (snd o) = before ++ [ev] /\
          ev_thrown ev = Some t /\
          Forall (fun ev' => ev_thrown ev' = None) before
    end.

(** A string without a dot. *)
Fixpoint dotless (s : string) : bool :=
  match s with
  | EmptyString => true
  | String c s' => andb (negb (Ascii.eqb c ".")) (dotless s')
  end.

(** In the process [q], the collaborators that the get handler of the
    runtime [rt] calls before the adapter's get return normally and leave
    the entry of [key] in the table as it is.  On node that is the loader,
    and only when no startup argument starts with [--env-file=]; on deno it
    is the permission gate and, when its answer is "granted", the loader
    after it; on bun there is none. *)
Definition prelude_keeps {A} (rt : string) (argv : list string)
    (gate : string -> Process A -> (Thrown + string) * Process A)
    (loader : Process A -> (Thrown + unit) * Process A)
    (key : string) (q : Process A) : Prop :=
  (rt = "node" ->
   (exists arg, In arg argv /\ String.prefix "--env-file=" arg = true) \/
   (exists q', loader q = (inr tt, q') /\ table q' !! key = table q !! key)) /\
  (rt = "deno" ->
   exists answer q1,
     gate "read" q = (inr answer, q1) /\ table q1 !! key = table q !! key /\
     (answer = "granted" ->
      exists q2, loader q1 = (inr tt, q2) /\ table q2 !! key = table q1 !! key)).

(** * Properties *)

(** ** The models on concrete inputs *)

Example moreThan_examples :
  Utils.moreThan "1.2.0" "1.10.0" = true /\
  Utils.moreThan "1.10.0" "1.9.0" = false /\
  Utils.moreThan "1.9.0" "1.10.0" = true /\
  Utils.ucFirst "node.js" = "Node.js" /\
  version_string (1, 10, 0)%N = "1.10.0" /\
  Utils.split "." "1.10.0" = ["1"; "10"; "0"].
Proof. repeat split; reflexivity. Qed.

Example facade_examples :
  let H := TableHost "node" new_enough [] (gate_answers "granted") (load_file [("K", "file")]) in
  value_of (run (and_then (UniEnv_set H "K" "v") (UniEnv_get H "K")) fresh)
    = Some (Returned (Ok (Some "v"))) /\
  value_of (run (and_then (UniEnv_set H "K" "v")
                   (and_then (UniEnv_delete H "K") (UniEnv_get H "K"))) fresh)
    = Some (Returned (Ok (Some "file"))) /\
  calls (snd (run (UniEnv_get H "K") fresh)) = [CallLoadEnvIfNeeded; CallEnvGet "K"] /\
  value_of (run (UniEnv_get (BoomHost "node" new_enough ["--env-file=.env"] "granted") "K") fresh)
    = Some (Returned (Ng (VersionError
         {| runtime := "Node.js";
            version := {| require := "20.6.0"; current := "20.11.1" |} |}))) /\
  value_of (run (UniEnv_set (BoomHost "toString" new_enough [] "granted") "K" "v") fresh)
    = Some (InheritedMember "toString").
Proof. repeat split; vm_compute; reflexivity. Qed.


(** ** The tables *)

(** The three tables have the same shape: the keys [node], [bun], [deno]. *)
Lemma three_keys_lookup {F} (f g h x : F) (rt : string) :
  (<["node" := f]> (<["bun" := g]> ({["deno" := h]} : gmap string F))) !! rt = Some x ->
  (rt = "node" /\ x = f) \/ (rt = "bun" /\ x = g) \/ (rt = "deno" /\ x = h).
Proof.
  intros Hl.
  apply lookup_insert_Some in Hl as [[<- <-] | [_ Hl]]; [now left |].
  apply lookup_insert_Some in Hl as [[<- <-] | [_ Hl]]; [now right; left |].
  apply lookup_singleton_Some in Hl as [<- <-]. now right; right.
Qed.

Lemma three_keys_absent {F} (f g h : F) (rt : string) :
  rt <> "node" -> rt <> "bun" -> rt <> "deno" ->
  (<["node" := f]> (<["bun" := g]> ({["deno" := h]} : gmap string F))) !! rt = None.
Proof.
  intros Hn Hb Hd.
  rewrite !lookup_insert_ne by congruence.
  apply lookup_singleton_ne. congruence.
Qed.

Lemma three_keys_present {F} (f g h : F) :
  let t := <["node" := f]> (<["bun" := g]> ({["deno" := h]} : gmap string F)) in
  t !! "node" = Some f /\ t !! "bun" = Some g /\ t !! "deno" = Some h.
Proof.
  cbv zeta. split; [| split].
  - apply lookup_insert_eq.
  - rewrite lookup_insert_ne by discriminate. apply lookup_insert_eq.
  - rewrite !lookup_insert_ne by discriminate. apply lookup_singleton_eq.
Qed.

Lemma runtimes_cases (rt : string) :
  In rt runtimes -> rt = "node" \/ rt = "bun" \/ rt = "deno".
Proof. unfold runtimes. simpl. intuition congruence. Qed.

(** ** The flag test of the node get handler *)

Lemma envFileSpecified_some {W} (H : Host W) :
  (exists arg, In arg (process_execArgv H) /\ String.prefix "--env-file=" arg = true) ->
  negb (Nat.eqb (List.length (envFileSpecified H)) 0) = true.
Proof.
  intros (arg & Hin & Hp).
  assert (Hf : In arg (envFileSpecified H)).
  { unfold envFileSpecified. apply filter_In. now split. }
  destruct (envFileSpecified H); [destruct Hf | reflexivity].
Qed.

Lemma envFileSpecified_none {W} (H : Host W) :
  (forall arg, In arg (process_execArgv H) -> String.prefix "--env-file=" arg = false) ->
  negb (Nat.eqb (List.length (envFileSpecified H)) 0) = false.
Proof.
  intros Hno. unfold envFileSpecified.
  induction (process_execArgv H) as [| a l IH]; [reflexivity |].
  simpl. rewrite (Hno a) by now left.
  apply IH. intros arg Hin. apply Hno. now right.
Qed.

(** Unfolding a handler down to the collaborator functions. *)
Ltac unfold_handlers :=
  unfold setRuntimeMap_node, setRuntimeMap_bun, setRuntimeMap_deno,
         getRuntimeMap_node, getRuntimeMap_bun, getRuntimeMap_deno,
         deleteRuntimeMap_node, deleteRuntimeMap_bun, deleteRuntimeMap_deno,
         env_set, env_get, env_delete, loadEnvIfNeeded, permissions,
         run, calls, try_catch, bind, ret, perform in *.

(** Membership in a short explicit trace, case by case. *)
Ltac trace_cases :=
  repeat match goal with
         | Hin : In _ [] |- _ => destruct Hin
         | Hin : In _ (_ :: _) |- _ => destruct Hin as [Hin | Hin]
         | Hin : _ \/ _ |- _ => destruct Hin as [Hin | Hin]
         | Hin : False |- _ => destruct Hin
         | Heq : Some _ = Some _ |- _ => inversion Heq; subst; clear Heq
         | Heq : Build_event _ _ = Build_event _ _ |- _ => inversion Heq; subst; clear Heq
         | Heq : inr _ = inr _ |- _ => inversion Heq; subst; clear Heq
         end;
  try discriminate; try contradiction; try reflexivity; simpl; auto.

(** ** C1: the version gate comes first *)

(** C1. For every runtime of the tables and every operation, when the
    version check fails the handler returns the version-deficiency failure
    built from the generic profile and leaves the state as it found it: the
    world is untouched and no collaborator call, hence no adapter primitive,
    is recorded. *)
Theorem version_gate_before_store {W} (H : Host W) (s : state W) (rt : string) :
  isSatisfiesVersion H = false ->
  In rt runtimes ->
  exists hset hget hdelete,
    setRuntimeMap H !! rt = Some hset /\
    getRuntimeMap H !! rt = Some hget /\
    deleteRuntimeMap H !! rt = Some hdelete /\
    (forall key value,
        hset key value s = (inr (Ng (VersionError (genericVersionError H))), s)) /\
    (forall key,
        hget key s = (inr (Ng (VersionError (genericVersionError H))), s)) /\
    (forall key,
        hdelete key s = (inr (Ng (VersionError (genericVersionError H))), s)) /\
    name (VersionError (genericVersionError H)) = "VersionError".
Proof.
  intros Hgate Hrt.
  destruct (three_keys_present (setRuntimeMap_node H) (setRuntimeMap_bun H)
              (setRuntimeMap_deno H)) as (Hs1 & Hs2 & Hs3).
  destruct (three_keys_present (getRuntimeMap_node H) (getRuntimeMap_bun H)
              (getRuntimeMap_deno H)) as (Hg1 & Hg2 & Hg3).
  destruct (three_keys_present (deleteRuntimeMap_node H) (deleteRuntimeMap_bun H)
              (deleteRuntimeMap_deno H)) as (Hd1 & Hd2 & Hd3).
  destruct (runtimes_cases rt Hrt) as [-> | [-> | ->]].
  - exists (setRuntimeMap_node H), (getRuntimeMap_node H), (deleteRuntimeMap_node H).
    repeat (split; [assumption |]).
    unfold_handlers. rewrite Hgate. repeat split; reflexivity.
  - exists (setRuntimeMap_bun H), (getRuntimeMap_bun H), (deleteRuntimeMap_bun H).
    repeat (split; [assumption |]).
    unfold_handlers. rewrite Hgate. repeat split; reflexivity.
  - exists (setRuntimeMap_deno H), (getRuntimeMap_deno H), (deleteRuntimeMap_deno H).
    repeat (split; [assumption |]).
    unfold_handlers. rewrite Hgate. repeat split; reflexivity.
Qed.

Lemma version_gate_before_store_witness :
  let H := TableHost "deno" too_old [] (gate_answers "granted") (load_file [("K", "file")]) in
  let s := {| world := fresh; trace := [] |} in
  isSatisfiesVersion H = false /\
  exists hset hget hdelete,
    setRuntimeMap H !! "deno" = Some hset /\
    getRuntimeMap H !! "deno" = Some hget /\
    deleteRuntimeMap H !! "deno" = Some hdelete /\
    (forall key value,
        hset key value s = (inr (Ng (VersionError (genericVersionError H))), s)) /\
    (forall key,
        hget key s = (inr (Ng (VersionError (genericVersionError H))), s)) /\
    (forall key,
        hdelete key s = (inr (Ng (VersionError (genericVersionError H))), s)) /\
    name (VersionError (genericVersionError H)) = "VersionError".
Proof.
  intros H s. split; [reflexivity |].
  apply (version_gate_before_store H s "deno"); [reflexivity |].
  right; right; left; reflexivity.
Defined.

(** ** C2: the node get handler and the loader *)

(** C2. In the node get handler, past the version gate: when some startup
    argument starts with [--env-file=] the only collaborator call is the
    adapter's get (the loader is not invoked); when none does, the loader is
    invoked first and exactly once, and the adapter's get is the call that
    follows it (there is none when the loader threw). *)
Theorem node_get_loader_calls {W} (H : Host W) (key : string) (w : W) :
  isSatisfiesVersion H = true ->
  ((exists arg, In arg (process_execArgv H) /\ String.prefix "--env-file=" arg = true) ->
     calls (snd (run (getRuntimeMap_node H key) w)) = [CallEnvGet key]) /\
  ((forall arg, In arg (process_execArgv H) -> String.prefix "--env-file=" arg = false) ->
     calls (snd (run (getRuntimeMap_node H key) w)) =
       CallLoadEnvIfNeeded ::
         match fst (Utils_loadEnvIfNeeded H w) with
         | inr _ => [CallEnvGet key]
         | inl _ => []
         end).
Proof.
  intros Hgate. split; intros Hflag.
  - apply envFileSpecified_some in Hflag.
    unfold_handlers. rewrite Hgate, Hflag. simpl.
    destruct (Commons_env_get H key w) as [[e | r] w']; reflexivity.
  - apply envFileSpecified_none in Hflag.
    unfold_handlers. rewrite Hgate, Hflag. simpl.
    destruct (Utils_loadEnvIfNeeded H w) as [[e | u] w1]; simpl; [reflexivity |].
    destruct (Commons_env_get H key w1) as [[e | r] w2]; reflexivity.
Qed.

Lemma node_get_loader_calls_witness :
  let H := TableHost "node" new_enough ["--max-old-space-size=64"]
             (gate_answers "granted") (load_file [("K", "file")]) in
  isSatisfiesVersion H = true /\
  (forall arg, In arg (process_execArgv H) -> String.prefix "--env-file=" arg = false) /\
  calls (snd (run (getRuntimeMap_node H "K") fresh)) = [CallLoadEnvIfNeeded; CallEnvGet "K"].
Proof.
  intros H. split; [reflexivity |].
  assert (Hno : forall arg, In arg (process_execArgv H) ->
                            String.prefix "--env-file=" arg = false).
  { intros arg [<- | []]. reflexivity. }
  split; [exact Hno |].
  exact (proj2 (node_get_loader_calls H "K" fresh eq_refl) Hno).
Defined.

(** ** C3: how the node get handler classifies a failure *)



(** ** C4: the deno get handler, the permission gate and the loader *)



(** ** C7: no partial success *)

(** The handlers once more, with a collaborator free to throw any value.
    The catch blocks read the message of what they caught,
    [(e as Error).message]; on [null] and [undefined] that read itself
    throws. *)
Module Raw.

(** What a collaborator throws: an object with a message (an [Error]); a
    value other than [null] and [undefined] whose [message] reads
    [undefined]; or [null] or [undefined]. *)
Inductive raised : Type :=
| RaisedError (t : Thrown)
| RaisedMessageless
| RaisedNullish.

Record event : Type := { ev_call : call; ev_raised : option raised }.

Section Monad.
Context {W : Type}.

Record state : Type := { world : W; trace : list event }.

Definition outcome (A : Type) : Type := (raised + A) * state.

Definition M (A : Type) : Type := state -> outcome A.

Definition ret {A} (a : A) : M A := fun s => (inr a, s).

Definition throw {A} (e : raised) : M A := fun s => (inl e, s).

Definition bind {A B} (m : M A) (k : A -> M B) : M B :=
  fun s => match m s with
           | (inr a, s') => k a s'
           | (inl e, s') => (inl e, s')
           end.

Definition try_catch {A} (m : M A) (h : raised -> M A) : M A :=
  fun s => match m s with
           | (inr a, s') => (inr a, s')
           | (inl e, s') => h e s'
           end.

Definition perform {A} (c : call) (f : W -> (raised + A) * W) : M A :=
  fun s =>
    let (r, w') := f (world s) in
    (r, {| world := w';
           trace := trace s ++
             [{| ev_call := c;
                 ev_raised := match r with inl e => Some e | inr _ => None end |}] |}).

Definition run {A} (m : M A) (w : W) : outcome A :=
  m {| world := w; trace := [] |}.

Definition calls (s : state) : list call := List.map ev_call (trace s).

End Monad.
Arguments state W : clear implicits.
Arguments outcome W A : clear implicits.
Arguments M W A : clear implicits.

Declare Scope raw_scope.
Notation "x <- m ;; k" := (bind m (fun x => k))
  (at level 100, m at next level, right associativity) : raw_scope.
Notation "'attempt' m 'catch' e => h" := (try_catch m (fun e => h))
  (at level 100, m at level 0, e name, h at level 100) : raw_scope.
Local Open Scope raw_scope.

(** The collaborators, as in [Host], throwing any value; [TypeError_text]
    is the engine's wording of "cannot read a property of null". *)
Record Host (W : Type) : Type := {
  RuntimeName : string;
  Commons_runtime_version : versionRange;
  Commons_env_set : string -> string -> W -> (raised + unit) * W;
  Commons_env_get : string -> W -> (raised + Maybe string) * W;
  Commons_env_delete : string -> W -> (raised + unit) * W;
  Commons_permissions : string -> W -> (raised + string) * W;
  Utils_loadEnvIfNeeded : W -> (raised + unit) * W;
  Utils_ucFirst : string -> string;
  Utils_versioning_moreThan : string -> string -> bool;
  process_execArgv : list string;
  TypeError_text : string
}.
Arguments RuntimeName {W} _.
Arguments Commons_runtime_version {W} _.
Arguments Commons_env_set {W} _ _ _ _.
Arguments Commons_env_get {W} _ _ _.
Arguments Commons_env_delete {W} _ _.
Arguments Commons_permissions {W} _ _ _.
Arguments Utils_loadEnvIfNeeded {W} _ _.
Arguments Utils_ucFirst {W} _ _.
Arguments Utils_versioning_moreThan {W} _ _ _.
Arguments process_execArgv {W} _.
Arguments TypeError_text {W} _.

Definition effect_of {W} (H : Host W) (c : call) (w : W) : W :=
  match c with
  | CallEnvSet key value => snd (Commons_env_set H key value w)
  | CallEnvGet key => snd (Commons_env_get H key w)
  | CallEnvDelete key => snd (Commons_env_delete H key w)
  | CallLoadEnvIfNeeded => snd (Utils_loadEnvIfNeeded H w)
  | CallPermissions capability => snd (Commons_permissions H capability w)
  end.

Definition replay {W} (H : Host W) (cs : list call) (w : W) : W :=
  List.fold_left (fun w c => effect_of H c w) cs w.

Section Index.
Context {W : Type} (H : Host W).

(** Lines 22-24. *)
Definition runtime_ : string :=
  Utils_ucFirst H
    (if String.eqb (RuntimeName H) "node" then (RuntimeName H ++ ".js")%string
     else RuntimeName H).

(** Lines 25-28. *)
Definition version_ : versionRange :=
  {| require := require (Commons_runtime_version H);
     current := current (Commons_runtime_version H) |}.

(** Lines 29-32. *)
Definition genericVersionError : versionErrorProp :=
  {| runtime := runtime_; version := version_ |}.

(** Lines 33-36. *)
Definition nodeVersionError : versionErrorProp :=
  {| runtime := runtime_;
     version := {| require := "20.6.0"; current := current version_ |} |}.

(** Lines 37-40. *)
Definition isSatisfiesVersion : bool :=
  Utils_versioning_moreThan H (require version_) (current version_).

Definition env_set (key value : string) : M W unit :=
  perform (CallEnvSet key value) (Commons_env_set H key value).

Definition env_get (key : string) : M W (Maybe string) :=
  perform (CallEnvGet key) (Commons_env_get H key).

Definition env_delete (key : string) : M W unit :=
  perform (CallEnvDelete key) (Commons_env_delete H key).

Definition loadEnvIfNeeded : M W unit :=
  perform CallLoadEnvIfNeeded (Utils_loadEnvIfNeeded H).

Definition permissions (capability : string) : M W string :=
  perform (CallPermissions capability) (Commons_permissions H capability).

(** [(e as Error).message]: [undefined] when the value has no message, a
    [TypeError] when the value is [null] or [undefined]. *)
Definition message_of (e : raised) : M W (option string) :=
  match e with
  | RaisedError t => ret (Some (thrown_message t))
  | RaisedMessageless => ret None
  | RaisedNullish =>
      throw (RaisedError {| thrown_name := "TypeError";
                            thrown_message := TypeError_text H |})
  end.

(** [new Error(m)]: an [undefined] message gives the empty message. *)
Definition new_Error (m : option string) : JsError :=
  Error (match m with Some text => text | None => EmptyString end).

Definition set_handler : Type := string -> string -> M W (Result unit JsError).
Definition get_handler : Type := string -> M W (Result (Maybe string) JsError).
Definition delete_handler : Type := string -> M W (Result unit JsError).

(** Lines 42-94. *)
Definition setRuntimeMap_node : set_handler := fun key value =>
  if negb isSatisfiesVersion then ret (Ng (VersionError genericVersionError))
  else
    attempt (u <- env_set key value ;; ret (Ok u))
    catch e => (m <- message_of e ;; ret (Ng (new_Error m))).

Definition setRuntimeMap_bun : set_handler := fun key value =>
  if negb isSatisfiesVersion then ret (Ng (VersionError genericVersionError))
  else
    attempt (u <- env_set key value ;; ret (Ok u))
    catch e => (m <- message_of e ;; ret (Ng (new_Error m))).

Definition setRuntimeMap_deno : set_handler := fun key value =>
  if negb isSatisfiesVersion then ret (Ng (VersionError genericVersionError))
  else
    attempt (u <- env_set key value ;; ret (Ok u))
    catch e => (m <- message_of e ;; ret (Ng (new_Error m))).

Definition setRuntimeMap : gmap string set_handler :=
  <["node" := setRuntimeMap_node]>
    (<["bun" := setRuntimeMap_bun]> ({["deno" := setRuntimeMap_deno]})).

(** Lines 96-157. *)
Definition envFileSpecified : list string :=
  List.filter (fun execArg => String.prefix "--env-file=" execArg)
              (process_execArgv H).

Definition getRuntimeMap_node : get_handler := fun key =>
  if negb isSatisfiesVersion then ret (Ng (VersionError genericVersionError))
  else if negb (Nat.eqb (List.length envFileSpecified) 0) then
    attempt (r <- env_get key ;; ret (Ok r))
    catch _e => ret (Ng (VersionError nodeVersionError))
  else
    attempt (_ <- loadEnvIfNeeded ;; r <- env_get key ;; ret (Ok r))
    catch e => (m <- message_of e ;; ret (Ng (new_Error m))).

Definition getRuntimeMap_bun : get_handler := fun key =>
  if negb isSatisfiesVersion then ret (Ng (VersionError genericVersionError))
  else
    attempt (r <- env_get key ;; ret (Ok r))
    catch e => (m <- message_of e ;; ret (Ng (new_Error m))).

Definition getRuntimeMap_deno : get_handler := fun key =>
  if negb isSatisfiesVersion then ret (Ng (VersionError genericVersionError))
  else
    attempt (permission <- permissions "read" ;;
             _ <- (if String.eqb permission "granted" then loadEnvIfNeeded
                   else ret tt) ;;
             r <- env_get key ;;
             ret (Ok r))
    catch e => (m <- message_of e ;; ret (Ng (new_Error m))).

Definition getRuntimeMap : gmap string get_handler :=
  <["node" := getRuntimeMap_node]>
    (<["bun" := getRuntimeMap_bun]> ({["deno" := getRuntimeMap_deno]})).

(** Lines 159-208. *)
Definition deleteRuntimeMap_node : delete_handler := fun key =>
  if negb isSatisfiesVersion then ret (Ng (VersionError genericVersionError))
  else
    attempt (u <- env_delete key ;; ret (Ok u))
    catch e => (m <- message_of e ;; ret (Ng (new_Error m))).

Definition deleteRuntimeMap_bun : delete_handler := fun key =>
  if negb isSatisfiesVersion then ret (Ng (VersionError genericVersionError))
  else
    attempt (u <- env_delete key ;; ret (Ok u))
    catch e => (m <- message_of e ;; ret (Ng (new_Error m))).

Definition deleteRuntimeMap_deno : delete_handler := fun key =>
  if negb isSatisfiesVersion then ret (Ng (VersionError genericVersionError))
  else
    attempt (u <- env_delete key ;; ret (Ok u))
    catch e => (m <- message_of e ;; ret (Ng (new_Error m))).

Definition deleteRuntimeMap : gmap string delete_handler :=
  <["node" := deleteRuntimeMap_node]>
    (<["bun" := deleteRuntimeMap_bun]> ({["deno" := deleteRuntimeMap_deno]})).

End Index.

(** What "atomic from the caller's point of view" says of the outcome [o]
    of a handler started in world [w]: the handler returned a [Result] (no
    exception left it); the world it leaves is the world its recorded
    collaborator calls leave, nothing more; a success means that every call
    returned and that the last one, and only that one, was an adapter
    primitive; a failure means that no call was made at all, or that the
    last call is the one that threw and every call before it returned. *)
Definition atomic {W A} (H : Host W) (w : W) (o : outcome W (Result A JsError)) : Prop :=
  exists r, fst o = inr r /\
    world (snd o) = replay H (calls (snd o)) w /\
    match r with
    | Ok _ =>
        Forall (fun ev => ev_raised ev = None) (trace (snd o)) /\
        exists before ev,
          trace (snd o) = before ++ [ev] /\
          is_adapter_call (ev_call ev) = true /\
          Forall (fun ev' => is_adapter_call (ev_call ev') = false) before
    | Ng _ =>
        trace (snd o) = [] \/
        exists before ev t,
          trace (snd o) = before ++ [ev] /\
          ev_raised ev = Some t /\
          Forall (fun ev' => ev_raised ev' = None) before
    end.

(** No collaborator call of the run threw [null] or [undefined]. *)
Definition no_nullish {W A} (o : outcome W A) : Prop :=
  forall ev, In ev (trace (snd o)) -> ev_raised ev <> Some RaisedNullish.

End Raw.

(** A host of [Host] seen as one of [Raw.Host]: its collaborators throw
    [Error] objects only. *)
Definition as_error {A} (r : Thrown + A) : Raw.raised + A :=
  match r with inl t => inl (Raw.RaisedError t) | inr a => inr a end.

Definition lift {W} (H : Host W) (text : string) : Raw.Host W :=
  {| Raw.RuntimeName := RuntimeName H;
     Raw.Commons_runtime_version := Commons_runtime_version H;
     Raw.Commons_env_set := fun key value w =>
       (as_error (fst (Commons_env_set H key value w)),
        snd (Commons_env_set H key value w));
     Raw.Commons_env_get := fun key w =>
       (as_error (fst (Commons_env_get H key w)), snd (Commons_env_get H key w));
     Raw.Commons_env_delete := fun key w =>
       (as_error (fst (Commons_env_delete H key w)), snd (Commons_env_delete H key w));
     Raw.Commons_permissions := fun capability w =>
       (as_error (fst (Commons_permissions H capability w)),
        snd (Commons_permissions H capability w));
     Raw.Utils_loadEnvIfNeeded := fun w =>
       (as_error (fst (Utils_loadEnvIfNeeded H w)), snd (Utils_loadEnvIfNeeded H w));
     Raw.Utils_ucFirst := Utils_ucFirst H;
     Raw.Utils_versioning_moreThan := Utils_versioning_moreThan H;
     Raw.process_execArgv := process_execArgv H;
     Raw.TypeError_text := text |}.


(** Unfolding a handler of [Raw] down to the collaborator functions. *)
Ltac unfold_raw :=
  unfold Raw.setRuntimeMap_node, Raw.setRuntimeMap_bun, Raw.setRuntimeMap_deno,
         Raw.getRuntimeMap_node, Raw.getRuntimeMap_bun, Raw.getRuntimeMap_deno,
         Raw.deleteRuntimeMap_node, Raw.deleteRuntimeMap_bun, Raw.deleteRuntimeMap_deno,
         Raw.env_set, Raw.env_get, Raw.env_delete, Raw.loadEnvIfNeeded,
         Raw.permissions, Raw.message_of, Raw.new_Error, Raw.no_nullish,
         Raw.run, Raw.calls, Raw.try_catch, Raw.bind, Raw.ret, Raw.throw,
         Raw.perform in *.














(** On a host that throws [Error] objects only, the handlers of [Raw] and
    the handlers above return the same result. *)
Lemma lift_same_result {W} (H : Host W) (text : string) (key value : string) (w : W) :
  fst (Raw.run (Raw.setRuntimeMap_node (lift H text) key value) w)
    = as_error (fst (run (setRuntimeMap_node H key value) w)) /\
  fst (Raw.run (Raw.deleteRuntimeMap_node (lift H text) key) w)
    = as_error (fst (run (deleteRuntimeMap_node H key) w)) /\
  fst (Raw.run (Raw.getRuntimeMap_node (lift H text) key) w)
    = as_error (fst (run (getRuntimeMap_node H key) w)) /\
  fst (Raw.run (Raw.getRuntimeMap_bun (lift H text) key) w)
    = as_error (fst (run (getRuntimeMap_bun H key) w)) /\
  fst (Raw.run (Raw.getRuntimeMap_deno (lift H text) key) w)
    = as_error (fst (run (getRuntimeMap_deno H key) w)).
Proof.
  unfold_raw. unfold_handlers. unfold Raw.isSatisfiesVersion, Raw.envFileSpecified.
  change (Raw.Utils_versioning_moreThan (lift H text)
            (require (Raw.version_ (lift H text)))
            (current (Raw.version_ (lift H text))))
    with (isSatisfiesVersion H).
  change (Raw.process_execArgv (lift H text)) with (process_execArgv H).
  fold (envFileSpecified H).
  destruct (isSatisfiesVersion H); simpl; [| repeat split; reflexivity].
  repeat split.
  - destruct (Commons_env_set H key value w) as [[e | u] w1]; reflexivity.
  - destruct (Commons_env_delete H key w) as [[e | u] w1]; reflexivity.
  - destruct (negb (Nat.eqb (List.length (envFileSpecified H)) 0)); simpl.
    + destruct (Commons_env_get H key w) as [[e | r] w1]; reflexivity.
    + destruct (Utils_loadEnvIfNeeded H w) as [[e | u] w1]; simpl; [reflexivity |].
      destruct (Commons_env_get H key w1) as [[e | r] w2]; reflexivity.
  - destruct (Commons_env_get H key w) as [[e | r] w1]; reflexivity.
  - destruct (Commons_permissions H "read" w) as [[e | permission] w1]; simpl;
      [reflexivity |].
    destruct (String.eqb permission "granted"); simpl.
    + destruct (Utils_loadEnvIfNeeded H w1) as [[e | u] w2]; simpl; [reflexivity |].
      destruct (Commons_env_get H key w2) as [[e | r] w3]; reflexivity.
    + destruct (Commons_env_get H key w1) as [[e | r] w2]; reflexivity.
Qed.

(** ** C8: the thrown message is carried unchanged *)

(** C8. Past the version gate, on every runtime of the tables: when the
    adapter's set throws, the set handler returns the generic failure whose
    message is the thrown message, unchanged; likewise the delete handler
    when the adapter's delete throws.  The same holds of the adapter's get
    on bun, on deno (in the world the permission gate, and the loader when
    "read" is granted, have left) and on node when no startup argument
    starts with [--env-file=] (in the world the loader has left). *)
Theorem adapter_message_carried {W} (H : Host W) (rt : string) :
  isSatisfiesVersion H = true ->
  In rt runtimes ->
  (exists hset hdelete,
     setRuntimeMap H !! rt = Some hset /\
     deleteRuntimeMap H !! rt = Some hdelete /\
     forall (key value : string) (w w1 : W) (t : Thrown),
       (Commons_env_set H key value w = (inl t, w1) ->
        value_of (run (hset key value) w) = Some (Ng (Error (thrown_message t)))) /\
       (Commons_env_delete H key w = (inl t, w1) ->
        value_of (run (hdelete key) w) = Some (Ng (Error (thrown_message t))))) /\
  (getRuntimeMap H !! "bun" = Some (getRuntimeMap_bun H) /\
   forall (key : string) (w w1 : W) (t : Thrown),
     Commons_env_get H key w = (inl t, w1) ->
     value_of (run (getRuntimeMap_bun H key) w) = Some (Ng (Error (thrown_message t)))) /\
  (getRuntimeMap H !! "deno" = Some (getRuntimeMap_deno H) /\
   forall (key : string) (w w1 w3 : W) (permission : string) (t : Thrown),
     Commons_permissions H "read" w = (inr permission, w1) ->
     (permission <> "granted" ->
      Commons_env_get H key w1 = (inl t, w3) ->
      value_of (run (getRuntimeMap_deno H key) w) = Some (Ng (Error (thrown_message t)))) /\
     (permission = "granted" ->
      forall u w2,
        Utils_loadEnvIfNeeded H w1 = (inr u, w2) ->
        Commons_env_get H key w2 = (inl t, w3) ->
        value_of (run (getRuntimeMap_deno H key) w)
          = Some (Ng (Error (thrown_message t))))) /\
  (getRuntimeMap H !! "node" = Some (getRuntimeMap_node H) /\
   ((forall arg, In arg (process_execArgv H) -> String.prefix "--env-file=" arg = false) ->
    forall (key : string) (w w1 w2 : W) u (t : Thrown),
      Utils_loadEnvIfNeeded H w = (inr u, w1) ->
      Commons_env_get H key w1 = (inl t, w2) ->
      value_of (run (getRuntimeMap_node H key) w)
        = Some (Ng (Error (thrown_message t))))) /\
  (forall t, message (Error (thrown_message t)) = thrown_message t /\
             name (Error (thrown_message t)) = "Error").
Proof.
  intros Hgate Hrt.
  destruct (three_keys_present (setRuntimeMap_node H) (setRuntimeMap_bun H)
              (setRuntimeMap_deno H)) as (Hs1 & Hs2 & Hs3).
  destruct (three_keys_present (getRuntimeMap_node H) (getRuntimeMap_bun H)
              (getRuntimeMap_deno H)) as (Hg1 & Hg2 & Hg3).
  destruct (three_keys_present (deleteRuntimeMap_node H) (deleteRuntimeMap_bun H)
              (deleteRuntimeMap_deno H)) as (Hd1 & Hd2 & Hd3).
  assert (Hbody : forall (key value : string) (w w1 : W) (t : Thrown),
             (Commons_env_set H key value w = (inl t, w1) ->
              value_of (run (setRuntimeMap_node H key value) w)
                = Some (Ng (Error (thrown_message t)))) /\
             (Commons_env_delete H key w = (inl t, w1) ->
              value_of (run (deleteRuntimeMap_node H key) w)
                = Some (Ng (Error (thrown_message t))))).
  { intros key value w w1 t. clear Hs1 Hs2 Hs3 Hg1 Hg2 Hg3 Hd1 Hd2 Hd3.
    unfold value_of. unfold_handlers. rewrite Hgate. simpl.
    split; intros Hthrow; rewrite Hthrow; reflexivity. }
  split; [| split; [| split; [| split]]].
  - destruct (runtimes_cases rt Hrt) as [-> | [-> | ->]].
    + exists (setRuntimeMap_node H), (deleteRuntimeMap_node H).
      repeat (split; [assumption |]). exact Hbody.
    + exists (setRuntimeMap_bun H), (deleteRuntimeMap_bun H).
      repeat (split; [assumption |]). exact Hbody.
    + exists (setRuntimeMap_deno H), (deleteRuntimeMap_deno H).
      repeat (split; [assumption |]). exact Hbody.
  - split; [assumption |]. intros key w w1 t Hget.
    clear Hs1 Hs2 Hs3 Hg1 Hg2 Hg3 Hd1 Hd2 Hd3 Hbody.
    unfold value_of. unfold_handlers. rewrite Hgate. simpl.
    rewrite Hget. reflexivity.
  - split; [assumption |]. intros key w w1 w3 permission t Hperm.
    clear Hs1 Hs2 Hs3 Hg1 Hg2 Hg3 Hd1 Hd2 Hd3 Hbody. split.
    + intros Hne Hget. apply String.eqb_neq in Hne.
      unfold value_of. unfold_handlers. rewrite Hgate. simpl.
      rewrite Hperm. simpl. rewrite Hne. simpl. rewrite Hget. reflexivity.
    + intros -> u w2 Hload Hget.
      unfold value_of. unfold_handlers. rewrite Hgate. simpl.
      rewrite Hperm. simpl. rewrite Hload. simpl. rewrite Hget. reflexivity.
  - split; [assumption |]. intros Hflag key w w1 w2 u t Hload Hget.
    clear Hs1 Hs2 Hs3 Hg1 Hg2 Hg3 Hd1 Hd2 Hd3 Hbody.
    apply envFileSpecified_none in Hflag.
    unfold value_of. unfold_handlers. rewrite Hgate, Hflag. simpl.
    rewrite Hload. simpl. rewrite Hget. reflexivity.
  - intros t. split; reflexivity.
Qed.

Lemma adapter_message_carried_witness :
  let H := BoomHost "bun" new_enough [] "denied" in
  isSatisfiesVersion H = true /\
  In "bun" runtimes /\
  Commons_env_set H "K" "v" fresh = (inl boom, fresh) /\
  Commons_env_delete H "K" fresh = (inl boom, fresh) /\
  Commons_env_get H "K" fresh = (inl boom, fresh) /\
  value_of (run (setRuntimeMap_bun H "K" "v") fresh) = Some (Ng (Error "boom")) /\
  value_of (run (deleteRuntimeMap_bun H "K") fresh) = Some (Ng (Error "boom")) /\
  value_of (run (getRuntimeMap_bun H "K") fresh) = Some (Ng (Error "boom")).
Proof.
  intros H.
  assert (Hrt : In "bun" runtimes) by (right; left; reflexivity).
  split; [reflexivity |]. split; [exact Hrt |].
  split; [reflexivity |]. split; [reflexivity |]. split; [reflexivity |].
  destruct (adapter_message_carried H "bun" eq_refl Hrt)
    as ((hset & hdelete & Hs & Hd & Hall) & (_ & Hbun) & _).
  assert (Heqs : Some hset = Some (setRuntimeMap_bun H)).
  { transitivity (setRuntimeMap H !! "bun"); [symmetry; exact Hs |].
    exact (proj1 (proj2 (three_keys_present (setRuntimeMap_node H)
                           (setRuntimeMap_bun H) (setRuntimeMap_deno H)))). }
  assert (Heqd : Some hdelete = Some (deleteRuntimeMap_bun H)).
  { transitivity (deleteRuntimeMap H !! "bun"); [symmetry; exact Hd |].
    exact (proj1 (proj2 (three_keys_present (deleteRuntimeMap_node H)
                           (deleteRuntimeMap_bun H) (deleteRuntimeMap_deno H)))). }
  inversion Heqs; subst hset. inversion Heqd; subst hdelete.
  split; [exact (proj1 (Hall "K" "v" fresh fresh boom) eq_refl) |].
  split; [exact (proj2 (Hall "K" "v" fresh fresh boom) eq_refl) |].
  exact (Hbun "K" fresh fresh boom eq_refl).
Defined.

(** ** C9: the two version-deficiency profiles *)

(** C9. The generic and the node profile carry the same display name, the
    runtime identifier passed through [ucFirst] with ".js" appended first
    when the runtime is node, and the same current version; the node profile
    requires "20.6.0" and the generic one the version the host reports as
    required; the message of a version error is
    "<runtime> version <require> or higher is required. Current version:
    <current>".  With the first character put in upper case, the display
    names of the three runtimes are "Node.js", "Bun" and "Deno", the
    capitalized identifier with ".js" after it for node. *)
Theorem version_profiles {W} (H : Host W) :
  runtime (genericVersionError H) = runtime (nodeVersionError H) /\
  runtime (genericVersionError H)
    = Utils_ucFirst H (if String.eqb (RuntimeName H) "node"
                       then (RuntimeName H ++ ".js")%string else RuntimeName H) /\
  current (version (genericVersionError H)) = current (version (nodeVersionError H)) /\
  current (version (genericVersionError H)) = current (Commons_runtime_version H) /\
  require (version (nodeVersionError H)) = "20.6.0" /\
  require (version (genericVersionError H)) = require (Commons_runtime_version H) /\
  (forall prop,
      message (VersionError prop)
        = (runtime prop ++ " version " ++ require (version prop)
             ++ " or higher is required. Current version: "
             ++ current (version prop))%string /\
      name (VersionError prop) = "VersionError") /\
  (forall (v : versionRange) argv gate loader,
      runtime (genericVersionError (@TableHost bool "node" v argv gate loader))
        = "Node.js" /\
      runtime (genericVersionError (@TableHost bool "bun" v argv gate loader)) = "Bun" /\
      runtime (genericVersionError (@TableHost bool "deno" v argv gate loader)) = "Deno" /\
      "Node.js" = (Utils.ucFirst "node" ++ ".js")%string /\
      message (VersionError (nodeVersionError (@TableHost bool "node" v argv gate loader)))
        = ("Node.js version 20.6.0 or higher is required. Current version: "
             ++ current v)%string).
Proof.
  repeat split; reflexivity.
Qed.

(** ** C10: the facade is a dispatch on the runtime identity *)

Lemma dispatch_own {W F R} (H : Host W) (table : gmap string F) (invoke : F -> M W R) (f : F) :
  table !! RuntimeName H = Some f ->
  optional_dispatch H table invoke = (r <- invoke f ;; ret (Returned r)).
Proof.
  intros Hl. unfold optional_dispatch, get_property. now rewrite Hl.
Qed.

Lemma dispatch_missing {W F R} (H : Host W) (table : gmap string F) (invoke : F -> M W R) :
  table !! RuntimeName H = None ->
  ~ In (RuntimeName H) Object_prototype ->
  optional_dispatch H table invoke = ret Undefined.
Proof.
  intros Hl Hproto. unfold optional_dispatch, get_property. rewrite Hl.
  destruct (List.existsb (String.eqb (RuntimeName H)) Object_prototype) eqn:Hex;
    [| reflexivity].
  apply List.existsb_exists in Hex as (k & Hin & Heq).
  apply String.eqb_eq in Heq. subst k. contradiction.
Qed.

(** C10, as amended. For each of the three runtime identities, each facade
    operation is the handler of that identity applied to the same arguments:
    the same calls, the same world, the handler's result returned as it is.
    For an identity that is neither a key of the tables nor the name of a
    member of [Object.prototype], each facade operation returns [undefined]
    and touches nothing. *)
Theorem facade_is_dispatch {W} (H : Host W) :
  (In (RuntimeName H) runtimes ->
   exists hset hget hdelete,
     setRuntimeMap H !! RuntimeName H = Some hset /\
     getRuntimeMap H !! RuntimeName H = Some hget /\
     deleteRuntimeMap H !! RuntimeName H = Some hdelete /\
     forall key value : string,
       UniEnv_set H key value = (r <- hset key value ;; ret (Returned r)) /\
       UniEnv_get H key = (r <- hget key ;; ret (Returned r)) /\
       UniEnv_delete H key = (r <- hdelete key ;; ret (Returned r))) /\
  (~ In (RuntimeName H) runtimes ->
   ~ In (RuntimeName H) Object_prototype ->
   forall key value : string,
     UniEnv_set H key value = ret Undefined /\
     UniEnv_get H key = ret Undefined /\
     UniEnv_delete H key = ret Undefined).
Proof.
  split.
  - intros Hrt.
    destruct (three_keys_present (setRuntimeMap_node H) (setRuntimeMap_bun H)
                (setRuntimeMap_deno H)) as (Hs1 & Hs2 & Hs3).
    destruct (three_keys_present (getRuntimeMap_node H) (getRuntimeMap_bun H)
                (getRuntimeMap_deno H)) as (Hg1 & Hg2 & Hg3).
    destruct (three_keys_present (deleteRuntimeMap_node H) (deleteRuntimeMap_bun H)
                (deleteRuntimeMap_deno H)) as (Hd1 & Hd2 & Hd3).
    destruct (runtimes_cases _ Hrt) as [Hn | [Hn | Hn]]; rewrite Hn in *.
    + exists (setRuntimeMap_node H), (getRuntimeMap_node H), (deleteRuntimeMap_node H).
      repeat (split; [assumption |]). intros key value.
      unfold UniEnv_set, UniEnv_get, UniEnv_delete.
      split; [| split].
      * apply (dispatch_own H (setRuntimeMap H) (fun h => h key value)). now rewrite Hn.
      * apply (dispatch_own H (getRuntimeMap H) (fun h => h key)). now rewrite Hn.
      * apply (dispatch_own H (deleteRuntimeMap H) (fun h => h key)). now rewrite Hn.
    + exists (setRuntimeMap_bun H), (getRuntimeMap_bun H), (deleteRuntimeMap_bun H).
      repeat (split; [assumption |]). intros key value.
      unfold UniEnv_set, UniEnv_get, UniEnv_delete.
      split; [| split].
      * apply (dispatch_own H (setRuntimeMap H) (fun h => h key value)). now rewrite Hn.
      * apply (dispatch_own H (getRuntimeMap H) (fun h => h key)). now rewrite Hn.
      * apply (dispatch_own H (deleteRuntimeMap H) (fun h => h key)). now rewrite Hn.
    + exists (setRuntimeMap_deno H), (getRuntimeMap_deno H), (deleteRuntimeMap_deno H).
      repeat (split; [assumption |]). intros key value.
      unfold UniEnv_set, UniEnv_get, UniEnv_delete.
      split; [| split].
      * apply (dispatch_own H (setRuntimeMap H) (fun h => h key value)). now rewrite Hn.
      * apply (dispatch_own H (getRuntimeMap H) (fun h => h key)). now rewrite Hn.
      * apply (dispatch_own H (deleteRuntimeMap H) (fun h => h key)). now rewrite Hn.
  - intros Hrt Hproto key value.
    assert (Hn : RuntimeName H <> "node") by (intros E; apply Hrt; rewrite E; now left).
    assert (Hb : RuntimeName H <> "bun")
      by (intros E; apply Hrt; rewrite E; right; now left).
    assert (Hd : RuntimeName H <> "deno")
      by (intros E; apply Hrt; rewrite E; right; right; now left).
    unfold UniEnv_set, UniEnv_get, UniEnv_delete.
    split; [| split]; apply dispatch_missing; try assumption;
      apply three_keys_absent; assumption.
Qed.

Lemma facade_is_dispatch_witness :
  let H := TableHost "bun" new_enough [] (gate_answers "prompt") (load_file []) in
  In (RuntimeName H) runtimes /\
  value_of (run (UniEnv_set H "K" "v") fresh)
    = value_of (run (r <- setRuntimeMap_bun H "K" "v" ;; ret (Returned r)) fresh).
Proof.
  intros H.
  assert (Hrt : In (RuntimeName H) runtimes) by (right; left; reflexivity).
  split; [exact Hrt |].
  destruct (proj1 (facade_is_dispatch H) Hrt) as (hset & hget & hdelete & Hs & _ & _ & Hall).
  rewrite (proj1 (Hall "K" "v")).
  assert (Heq : Some hset = Some (setRuntimeMap_bun H)).
  { transitivity (setRuntimeMap H !! "bun"); [symmetry; exact Hs |].
    exact (proj1 (proj2 (three_keys_present (setRuntimeMap_node H)
                           (setRuntimeMap_bun H) (setRuntimeMap_deno H)))). }
  inversion Heq; subst hset. reflexivity.
Defined.

(** C10, the claim as it stands fails: an identity that is no key of the
    tables need not give [undefined].  With the identity "toString" the
    optional call finds [Object.prototype.toString] and calls it. *)
Lemma facade_undefined_counterexample :
  exists H : Host (Process bool),
    ~ In (RuntimeName H) runtimes /\
    value_of (run (UniEnv_set H "K" "v") fresh) = Some (InheritedMember "toString") /\
    value_of (run (UniEnv_set H "K" "v") fresh) <> Some Undefined /\
    value_of (run (UniEnv_get H "K") fresh) <> Some Undefined /\
    value_of (run (UniEnv_delete H "K") fresh) <> Some Undefined.
Proof.
  exists (BoomHost "toString" new_enough [] "granted").
  split.
  - unfold runtimes. simpl. intros [E | [E | [E | []]]]; discriminate.
  - repeat split; vm_compute; congruence.
Qed.

(** ** C6: the version comparator *)

Module VersionFacts.

Import DecimalPos.Unsigned.

Lemma digits_value_uint (d l : Decimal.uint) :
  Utils.digits_value (NilEmpty.string_of_uint d) (of_lu l)
    = Some (of_lu (Decimal.revapp d l)).
Proof.
  revert l.
  induction d as [| d IH | d IH | d IH | d IH | d IH | d IH | d IH | d IH | d IH | d IH];
    intros l; [reflexivity | ..];
    cbn [NilEmpty.string_of_uint Utils.digits_value Decimal.revapp];
    match goal with
    | |- context [Utils.digit_of ?c] =>
        let v := eval vm_compute in (Utils.digit_of c) in
        change (Utils.digit_of c) with v; cbv iota
    end;
    rewrite <- IH; f_equal; cbn [of_lu]; lia.
Qed.

Lemma dotless_uint (d : Decimal.uint) :
  dotless (NilEmpty.string_of_uint d) = true.
Proof.
  induction d; cbn [NilEmpty.string_of_uint dotless]; [reflexivity | ..];
    rewrite IHd; reflexivity.
Qed.

Lemma to_number_decimal (n : N) : Utils.to_number (decimal n) = Some n.
Proof.
  unfold Utils.to_number, decimal.
  assert (Hval : Utils.digits_value (NilEmpty.string_of_uint (N.to_uint n)) 0%N = Some n).
  { change 0%N with (of_lu Decimal.Nil). rewrite digits_value_uint.
    change (Decimal.revapp (N.to_uint n) Decimal.Nil) with (Decimal.rev (N.to_uint n)).
    rewrite <- of_uint_alt.
    change (Pos.of_uint (N.to_uint n)) with (N.of_uint (N.to_uint n)).
    now rewrite DecimalN.Unsigned.of_to. }
  destruct (NilEmpty.string_of_uint (N.to_uint n)) eqn:Hs; [| exact Hval].
  destruct n as [| p]; [discriminate Hs |].
  exfalso. apply (to_uint_nonnil p).
  cbn [N.to_uint] in Hs. destruct (Pos.to_uint p); try discriminate Hs. reflexivity.
Qed.

Lemma dotless_decimal (n : N) : dotless (decimal n) = true.
Proof. apply dotless_uint. Qed.

Lemma split_dotless (s : string) :
  dotless s = true -> Utils.split "." s = [s].
Proof.
  induction s as [| c s IH]; [reflexivity |].
  cbn [dotless Utils.split]. intros Hd.
  apply andb_prop in Hd as [Hc Hs].
  apply negb_true_iff in Hc. rewrite Hc, (IH Hs). reflexivity.
Qed.

Lemma split_piece (s rest : string) :
  dotless s = true ->
  Utils.split "." (s ++ String "." rest) = s :: Utils.split "." rest.
Proof.
  induction s as [| c s IH]; [reflexivity |].
  change (String c s ++ String "." rest)%string
    with (String c (s ++ String "." rest)%string).
  cbn [dotless Utils.split]. intros Hd.
  apply andb_prop in Hd as [Hc Hs].
  apply negb_true_iff in Hc. rewrite Hc, (IH Hs). reflexivity.
Qed.

Lemma parse_version_string (v : N * N * N) :
  Utils.parse_version (version_string v) = Some v.
Proof.
  destruct v as [[a b] c]. unfold Utils.parse_version, version_string.
  change (decimal a ++ "." ++ decimal b ++ "." ++ decimal c)%string
    with (decimal a ++ String "." (decimal b ++ String "." (decimal c)))%string.
  rewrite split_piece by apply dotless_decimal.
  rewrite split_piece by apply dotless_decimal.
  rewrite split_dotless by apply dotless_decimal.
  now rewrite !to_number_decimal.
Qed.

End VersionFacts.

(** C6. On well-formed version strings (three integers in decimal,
    dot-separated) the comparator, given the required version first and the
    current one second, answers true exactly when the current version is at
    least the required one, major first, then minor, then patch, each as a
    number: 10 is above 9.  [index.ts] hands it [version.require] and
    [version.current], in that order. *)
Theorem version_comparator (required running : N * N * N) :
  (Utils.moreThan (version_string required) (version_string running) = true
     <-> version_le required running) /\
  Utils.moreThan "1.10.0" "1.9.0" = false /\
  Utils.moreThan "1.9.0" "1.10.0" = true /\
  (forall W (H : Host W),
      isSatisfiesVersion H
        = Utils_versioning_moreThan H (require (Commons_runtime_version H))
                                      (current (Commons_runtime_version H))) /\
  (forall (v : versionRange) argv gate loader,
      isSatisfiesVersion (@TableHost bool "node" v argv gate loader)
        = Utils.moreThan (require v) (current v)).
Proof.
  split; [| repeat split; reflexivity].
  unfold Utils.moreThan. rewrite !VersionFacts.parse_version_string.
  destruct required as [[a1 b1] c1], running as [[a2 b2] c2]. unfold version_le.
  destruct (N.ltb_spec a1 a2); [split; [lia | reflexivity] |].
  destruct (N.ltb_spec a2 a1); [split; [discriminate | lia] |].
  destruct (N.ltb_spec b1 b2); [split; [lia | reflexivity] |].
  destruct (N.ltb_spec b2 b1); [split; [discriminate | lia] |].
  rewrite N.leb_le. lia.
Qed.

(** ** C5: set, get and delete against the environment table *)

Section Roundtrip.
Context {A : Type}.
Variables (rt : string) (v : versionRange) (argv : list string).
Variable gate : string -> Process A -> (Thrown + string) * Process A.
Variable loader : Process A -> (Thrown + unit) * Process A.
Variable key : string.

Let H : Host (Process A) := TableHost rt v argv gate loader.

Hypothesis Hrt : In rt runtimes.
Hypothesis Hgate : isSatisfiesVersion H = true.

Lemma facade_set_writes (value : string) (s : state (Process A)) :
  exists s',
    UniEnv_set H key value s = (inr (Returned (Ok tt)), s') /\
    table (world s') = <[key := value]> (table (world s)).
Proof.
  assert (Hbody : exists s',
             setRuntimeMap_node H key value s = (inr (Ok tt), s') /\
             table (world s') = <[key := value]> (table (world s))).
  { unfold_handlers. rewrite Hgate. simpl. eexists. split; reflexivity. }
  destruct Hbody as (s' & Hrun & Htable). exists s'. split; [| exact Htable].
  destruct (three_keys_present (setRuntimeMap_node H) (setRuntimeMap_bun H)
              (setRuntimeMap_deno H)) as (Hs1 & Hs2 & Hs3).
  unfold UniEnv_set.
  destruct (runtimes_cases rt Hrt) as [Hn | [Hn | Hn]].
  - rewrite (dispatch_own H (setRuntimeMap H) (fun h => h key value) (setRuntimeMap_node H))
      by (simpl; rewrite Hn; exact Hs1).
    unfold bind at 1. rewrite Hrun. reflexivity.
  - rewrite (dispatch_own H (setRuntimeMap H) (fun h => h key value) (setRuntimeMap_bun H))
      by (simpl; rewrite Hn; exact Hs2).
    unfold bind at 1. change (setRuntimeMap_bun H) with (setRuntimeMap_node H).
    rewrite Hrun. reflexivity.
  - rewrite (dispatch_own H (setRuntimeMap H) (fun h => h key value) (setRuntimeMap_deno H))
      by (simpl; rewrite Hn; exact Hs3).
    unfold bind at 1. change (setRuntimeMap_deno H) with (setRuntimeMap_node H).
    rewrite Hrun. reflexivity.
Qed.

Lemma facade_delete_erases (s : state (Process A)) :
  exists s',
    UniEnv_delete H key s = (inr (Returned (Ok tt)), s') /\
    table (world s') = delete key (table (world s)).
Proof.
  assert (Hbody : exists s',
             deleteRuntimeMap_node H key s = (inr (Ok tt), s') /\
             table (world s') = delete key (table (world s))).
  { unfold_handlers. rewrite Hgate. simpl. eexists. split; reflexivity. }
  destruct Hbody as (s' & Hrun & Htable). exists s'. split; [| exact Htable].
  destruct (three_keys_present (deleteRuntimeMap_node H) (deleteRuntimeMap_bun H)
              (deleteRuntimeMap_deno H)) as (Hs1 & Hs2 & Hs3).
  unfold UniEnv_delete.
  destruct (runtimes_cases rt Hrt) as [Hn | [Hn | Hn]].
  - rewrite (dispatch_own H (deleteRuntimeMap H) (fun h => h key) (deleteRuntimeMap_node H))
      by (simpl; rewrite Hn; exact Hs1).
    unfold bind at 1. rewrite Hrun. reflexivity.
  - rewrite (dispatch_own H (deleteRuntimeMap H) (fun h => h key) (deleteRuntimeMap_bun H))
      by (simpl; rewrite Hn; exact Hs2).
    unfold bind at 1. change (deleteRuntimeMap_bun H) with (deleteRuntimeMap_node H).
    rewrite Hrun. reflexivity.
  - rewrite (dispatch_own H (deleteRuntimeMap H) (fun h => h key) (deleteRuntimeMap_deno H))
      by (simpl; rewrite Hn; exact Hs3).
    unfold bind at 1. change (deleteRuntimeMap_deno H) with (deleteRuntimeMap_node H).
    rewrite Hrun. reflexivity.
Qed.

Lemma get_node_reads (s : state (Process A)) :
  (exists arg, In arg argv /\ String.prefix "--env-file=" arg = true) \/
  (exists q', loader (world s) = (inr tt, q') /\
              table q' !! key = table (world s) !! key) ->
  exists s', getRuntimeMap_node H key s = (inr (Ok (table (world s) !! key)), s').
Proof.
  intros Hprelude.
  unfold_handlers. rewrite Hgate. simpl.
  destruct (negb (Nat.eqb (List.length (envFileSpecified H)) 0)) eqn:Hflag; simpl.
  - eexists. reflexivity.
  - destruct Hprelude as [Hsome | (q' & Hl & Hkeep)].
    + apply (envFileSpecified_some H) in Hsome. congruence.
    + rewrite Hl. simpl. rewrite Hkeep. eexists. reflexivity.
Qed.

Lemma get_bun_reads (s : state (Process A)) :
  exists s', getRuntimeMap_bun H key s = (inr (Ok (table (world s) !! key)), s').
Proof.
  unfold_handlers. rewrite Hgate. simpl. eexists. reflexivity.
Qed.

Lemma get_deno_reads (s : state (Process A)) :
  (exists answer q1,
      gate "read" (world s) = (inr answer, q1) /\
      table q1 !! key = table (world s) !! key /\
      (answer = "granted" ->
       exists q2, loader q1 = (inr tt, q2) /\ table q2 !! key = table q1 !! key)) ->
  exists s', getRuntimeMap_deno H key s = (inr (Ok (table (world s) !! key)), s').
Proof.
  intros (answer & q1 & Hp & Hkeep1 & Hload).
  unfold_handlers. rewrite Hgate. simpl. rewrite Hp. simpl.
  destruct (String.eqb_spec answer "granted") as [Hg | Hg]; simpl.
  - destruct (Hload Hg) as (q2 & Hl & Hkeep2). rewrite Hl. simpl.
    rewrite Hkeep2, Hkeep1. eexists. reflexivity.
  - rewrite Hkeep1. eexists. reflexivity.
Qed.

Lemma facade_get_reads (s : state (Process A)) :
  prelude_keeps rt argv gate loader key (world s) ->
  exists s', UniEnv_get H key s = (inr (Returned (Ok (table (world s) !! key))), s').
Proof.
  intros (Hnode & Hdeno).
  destruct (three_keys_present (getRuntimeMap_node H) (getRuntimeMap_bun H)
              (getRuntimeMap_deno H)) as (Hs1 & Hs2 & Hs3).
  unfold UniEnv_get.
  destruct (runtimes_cases rt Hrt) as [Hn | [Hn | Hn]].
  - rewrite (dispatch_own H (getRuntimeMap H) (fun h => h key) (getRuntimeMap_node H))
      by (simpl; rewrite Hn; exact Hs1).
    destruct (get_node_reads s (Hnode Hn)) as (s' & Hrun). exists s'.
    unfold bind at 1. rewrite Hrun. reflexivity.
  - rewrite (dispatch_own H (getRuntimeMap H) (fun h => h key) (getRuntimeMap_bun H))
      by (simpl; rewrite Hn; exact Hs2).
    destruct (get_bun_reads s) as (s' & Hrun). exists s'.
    unfold bind at 1. rewrite Hrun. reflexivity.
  - rewrite (dispatch_own H (getRuntimeMap H) (fun h => h key) (getRuntimeMap_deno H))
      by (simpl; rewrite Hn; exact Hs3).
    destruct (get_deno_reads s (Hdeno Hn)) as (s' & Hrun). exists s'.
    unfold bind at 1. rewrite Hrun. reflexivity.
Qed.

End Roundtrip.

(** C5, as amended. On every runtime of the tables, past the version gate,
    with the environment table as store adapter: after a successful
    [set(k, v)], [get(k)] returns the success whose payload is the present
    string [v] (the empty string included), and [get(k)] after [delete(k)]
    returns the success whose payload is absent, provided that in that get
    the collaborators called before the adapter's get (the loader on node
    without an [--env-file=] argument and on deno when "read" is granted;
    the permission gate on deno) return normally and leave the entry of
    [k] as it is. *)
Theorem set_get_delete_roundtrip {A} (rt : string) (v : versionRange)
    (argv : list string)
    (gate : string -> Process A -> (Thrown + string) * Process A)
    (loader : Process A -> (Thrown + unit) * Process A)
    (key value : string) (p : Process A) :
  In rt runtimes ->
  isSatisfiesVersion (TableHost rt v argv gate loader) = true ->
  value_of (run (UniEnv_set (TableHost rt v argv gate loader) key value) p)
    = Some (Returned (Ok tt)) ->
  (prelude_keeps rt argv gate loader key
     (world (snd (run (UniEnv_set (TableHost rt v argv gate loader) key value) p))) ->
   value_of (run (and_then (UniEnv_set (TableHost rt v argv gate loader) key value)
                           (UniEnv_get (TableHost rt v argv gate loader) key)) p)
     = Some (Returned (Ok (Some value)))) /\
  (prelude_keeps rt argv gate loader key
     (world (snd (run (and_then (UniEnv_set (TableHost rt v argv gate loader) key value)
                                (UniEnv_delete (TableHost rt v argv gate loader) key)) p))) ->
   value_of (run (and_then (UniEnv_set (TableHost rt v argv gate loader) key value)
                    (and_then (UniEnv_delete (TableHost rt v argv gate loader) key)
                              (UniEnv_get (TableHost rt v argv gate loader) key))) p)
     = Some (Returned (Ok None))).
Proof.
  intros Hrt Hgate _.
  set (s0 := {| world := p; trace := [] |}).
  destruct (facade_set_writes rt v argv gate loader key Hrt Hgate value s0)
    as (s1 & Hset & Htable1).
  destruct (facade_delete_erases rt v argv gate loader key Hrt Hgate s1)
    as (s3 & Hdel & Htable3).
  unfold value_of, run, and_then, bind. fold s0. rewrite Hset. simpl.
  split.
  - intros Hkeep.
    destruct (facade_get_reads rt v argv gate loader key Hrt Hgate s1 Hkeep)
      as (s2 & Hget).
    rewrite Hget. simpl. rewrite Htable1, lookup_insert_eq. reflexivity.
  - rewrite Hdel. simpl. intros Hkeep.
    destruct (facade_get_reads rt v argv gate loader key Hrt Hgate s3 Hkeep)
      as (s4 & Hget).
    rewrite Hget. simpl. rewrite Htable3, lookup_delete_eq. reflexivity.
Qed.

Lemma set_get_delete_roundtrip_witness :
  let H := TableHost "node" new_enough ["--env-file=.env"] (gate_answers "granted")
             load_missing in
  In "node" runtimes /\
  isSatisfiesVersion H = true /\
  value_of (run (UniEnv_set H "K" "") fresh) = Some (Returned (Ok tt)) /\
  value_of (run (and_then (UniEnv_set H "K" "") (UniEnv_get H "K")) fresh)
    = Some (Returned (Ok (Some ""))) /\
  value_of (run (and_then (UniEnv_set H "K" "")
                   (and_then (UniEnv_delete H "K") (UniEnv_get H "K"))) fresh)
    = Some (Returned (Ok None)).
Proof.
  intros H.
  assert (Hrt : In "node" runtimes) by (left; reflexivity).
  assert (Hset : value_of (run (UniEnv_set H "K" "") fresh) = Some (Returned (Ok tt)))
    by reflexivity.
  assert (Hkeep : forall q, prelude_keeps "node" ["--env-file=.env"]
                              (gate_answers "granted") load_missing "K" q).
  { intros q. split.
    - intros _. left. exists "--env-file=.env". split; [now left | reflexivity].
    - discriminate. }
  split; [exact Hrt |]. split; [reflexivity |]. split; [exact Hset |].
  destruct (set_get_delete_roundtrip "node" new_enough ["--env-file=.env"]
              (gate_answers "granted") load_missing "K" "" fresh Hrt eq_refl Hset)
    as (Hget & Hdel).
  split; [exact (Hget (Hkeep _)) | exact (Hdel (Hkeep _))].
Defined.

(** C5, the claim as it stands fails on node when no startup argument
    starts with [--env-file=] (and likewise on deno when "read" is granted),
    because get calls the loader before the adapter.  First process: the
    env file defines K and has not been loaded; after set and delete, get
    loads the file and finds K present.  Second process: the loader throws;
    after a successful set, get returns a failure. *)
Lemma set_get_delete_counterexample :
  (let H := TableHost "node" new_enough [] (gate_answers "granted")
              (load_file [("K", "file")]) in
   isSatisfiesVersion H = true /\
   value_of (run (UniEnv_set H "K" "v") fresh) = Some (Returned (Ok tt)) /\
   value_of (run (and_then (UniEnv_set H "K" "v") (UniEnv_delete H "K")) fresh)
     = Some (Returned (Ok tt)) /\
   value_of (run (and_then (UniEnv_set H "K" "v")
                    (and_then (UniEnv_delete H "K") (UniEnv_get H "K"))) fresh)
     = Some (Returned (Ok (Some "file"))) /\
   value_of (run (and_then (UniEnv_set H "K" "v")
                    (and_then (UniEnv_delete H "K") (UniEnv_get H "K"))) fresh)
     <> Some (Returned (Ok None))) /\
  (let H := TableHost "node" new_enough [] (gate_answers "granted") load_missing in
   isSatisfiesVersion H = true /\
   value_of (run (UniEnv_set H "K" "v") fresh) = Some (Returned (Ok tt)) /\
   value_of (run (and_then (UniEnv_set H "K" "v") (UniEnv_get H "K")) fresh)
     = Some (Returned (Ng (Error "ENOENT: no such file or directory, open '.env'"))) /\
   value_of (run (and_then (UniEnv_set H "K" "v") (UniEnv_get H "K")) fresh)
     <> Some (Returned (Ok (Some "v")))).
Proof.
  split; cbv zeta; repeat split; try (vm_compute; congruence).
Qed.

(** * Further properties of [index.ts] *)

(** The host [H] with another runtime identity, everything else the same. *)
Definition with_runtime {W} (H : Host W) (rt : string) : Host W :=
  {| RuntimeName := rt;
     Commons_runtime_version := Commons_runtime_version H;
     Commons_env_set := Commons_env_set H;
     Commons_env_get := Commons_env_get H;
     Commons_env_delete := Commons_env_delete H;
     Commons_permissions := Commons_permissions H;
     Utils_loadEnvIfNeeded := Utils_loadEnvIfNeeded H;
     Utils_ucFirst := Utils_ucFirst H;
     Utils_versioning_moreThan := Utils_versioning_moreThan H;
     process_execArgv := process_execArgv H |}.

(** The value of a table entry that is known to be there. *)
Lemma lookup_agree {F} (t : gmap string F) (k : string) (x y : F) :
  t !! k = Some x -> t !! k = Some y -> x = y.
Proof. intros Hx Hy. rewrite Hx in Hy. now inversion Hy. Qed.

(** ** The set and delete handlers make one call, their own primitive *)

(** X1. On every runtime of the tables the set handler makes exactly one
    collaborator call when the version gate passes, the adapter's set with
    the key and the value it was given, and none when the gate fails; the
    delete handler likewise with the adapter's delete.  Neither ever calls
    the loader, the permission gate or another primitive. *)
Theorem set_delete_single_call {W} (H : Host W) (rt : string) :
  In rt runtimes ->
  exists hset hdelete,
    setRuntimeMap H !! rt = Some hset /\
    deleteRuntimeMap H !! rt = Some hdelete /\
    forall (key value : string) (w : W),
      calls (snd (run (hset key value) w))
        = (if isSatisfiesVersion H then [CallEnvSet key value] else []) /\
      calls (snd (run (hdelete key) w))
        = (if isSatisfiesVersion H then [CallEnvDelete key] else []).
Proof.
  intros Hrt.
  destruct (three_keys_present (setRuntimeMap_node H) (setRuntimeMap_bun H)
              (setRuntimeMap_deno H)) as (Hs1 & Hs2 & Hs3).
  destruct (three_keys_present (deleteRuntimeMap_node H) (deleteRuntimeMap_bun H)
              (deleteRuntimeMap_deno H)) as (Hd1 & Hd2 & Hd3).
  assert (Hbody : forall key value w,
             calls (snd (run (setRuntimeMap_node H key value) w))
               = (if isSatisfiesVersion H then [CallEnvSet key value] else []) /\
             calls (snd (run (deleteRuntimeMap_node H key) w))
               = (if isSatisfiesVersion H then [CallEnvDelete key] else [])).
  { intros key value w. unfold_handlers.
    destruct (isSatisfiesVersion H); simpl; [| split; reflexivity].
    destruct (Commons_env_set H key value w) as [[e | u] w1];
      destruct (Commons_env_delete H key w) as [[e' | u'] w2]; split; reflexivity. }
  destruct (runtimes_cases rt Hrt) as [-> | [-> | ->]].
  - exists (setRuntimeMap_node H), (deleteRuntimeMap_node H).
    repeat (split; [assumption |]). exact Hbody.
  - exists (setRuntimeMap_bun H), (deleteRuntimeMap_bun H).
    repeat (split; [assumption |]). exact Hbody.
  - exists (setRuntimeMap_deno H), (deleteRuntimeMap_deno H).
    repeat (split; [assumption |]). exact Hbody.
Qed.

Lemma set_delete_single_call_witness :
  let H := TableHost "node" new_enough [] (gate_answers "granted")
             (load_file [("K", "file")]) in
  In "node" runtimes /\
  calls (snd (run (setRuntimeMap_node H "K" "v") fresh)) = [CallEnvSet "K" "v"].
Proof.
  intros H.
  assert (Hrt : In "node" runtimes) by (left; reflexivity).
  split; [exact Hrt |].
  destruct (set_delete_single_call H "node" Hrt) as (hset & hdelete & Hs & _ & Hall).
  assert (Heq : hset = setRuntimeMap_node H).
  { apply (lookup_agree (setRuntimeMap H) "node"); [exact Hs |].
    exact (proj1 (three_keys_present (setRuntimeMap_node H)
                    (setRuntimeMap_bun H) (setRuntimeMap_deno H))). }
  subst hset. exact (proj1 (Hall "K" "v" fresh)).
Defined.

(** ** What the get handlers call *)

(** Membership in a short explicit list of calls, case by case. *)
Ltac call_cases :=
  trace_cases; subst; simpl in *; try congruence; try lia.

(** X2. On every runtime of the tables the get handler never writes: the
    only adapter primitive it calls is get, for the key it was given, and at
    most once.  On bun it calls nothing else at all; on node it never
    queries the permission gate; and a permission query, where there is
    one, is for "read". *)
Theorem get_calls_only_get {W} (H : Host W) (rt : string) :
  In rt runtimes ->
  exists hget,
    getRuntimeMap H !! rt = Some hget /\
    forall (key : string) (w : W),
      (forall c, In c (calls (snd (run (hget key) w))) ->
                 is_adapter_call c = true -> c = CallEnvGet key) /\
      List.length (List.filter is_adapter_call (calls (snd (run (hget key) w)))) <= 1 /\
      (rt = "bun" ->
       forall c, In c (calls (snd (run (hget key) w))) -> c = CallEnvGet key) /\
      (rt = "node" ->
       forall c, In c (calls (snd (run (hget key) w))) -> is_permission_call c = false) /\
      (forall c, In c (calls (snd (run (hget key) w))) ->
                 is_permission_call c = true -> c = CallPermissions "read").
Proof.
  intros Hrt.
  destruct (three_keys_present (getRuntimeMap_node H) (getRuntimeMap_bun H)
              (getRuntimeMap_deno H)) as (Hg1 & Hg2 & Hg3).
  destruct (runtimes_cases rt Hrt) as [-> | [-> | ->]]; clear Hrt.
  - exists (getRuntimeMap_node H). split; [assumption |]. intros key w.
    clear Hg1 Hg2 Hg3. unfold_handlers.
    destruct (isSatisfiesVersion H); simpl;
      [| repeat split; intros; call_cases].
    destruct (negb (Nat.eqb (List.length (envFileSpecified H)) 0)); simpl.
    + destruct (Commons_env_get H key w) as [[e | r] w1]; simpl;
        repeat split; intros; call_cases.
    + destruct (Utils_loadEnvIfNeeded H w) as [[e | u] w1]; simpl;
        [repeat split; intros; call_cases |].
      destruct (Commons_env_get H key w1) as [[e | r] w2]; simpl;
        repeat split; intros; call_cases.
  - exists (getRuntimeMap_bun H). split; [assumption |]. intros key w.
    clear Hg1 Hg2 Hg3. unfold_handlers.
    destruct (isSatisfiesVersion H); simpl;
      [| repeat split; intros; call_cases].
    destruct (Commons_env_get H key w) as [[e | r] w1]; simpl;
      repeat split; intros; call_cases.
  - exists (getRuntimeMap_deno H). split; [assumption |]. intros key w.
    clear Hg1 Hg2 Hg3. unfold_handlers.
    destruct (isSatisfiesVersion H); simpl;
      [| repeat split; intros; call_cases].
    destruct (Commons_permissions H "read" w) as [[e | permission] w1]; simpl;
      [repeat split; intros; call_cases |].
    destruct (String.eqb permission "granted"); simpl.
    + destruct (Utils_loadEnvIfNeeded H w1) as [[e | u] w2]; simpl;
        [repeat split; intros; call_cases |].
      destruct (Commons_env_get H key w2) as [[e | r] w3]; simpl;
        repeat split; intros; call_cases.
    + destruct (Commons_env_get H key w1) as [[e | r] w2]; simpl;
        repeat split; intros; call_cases.
Qed.

Lemma get_calls_only_get_witness :
  let H := TableHost "deno" new_enough [] (gate_answers "granted")
             (load_file [("K", "file")]) in
  In "deno" runtimes /\
  List.length (List.filter is_adapter_call
                 (calls (snd (run (getRuntimeMap_deno H "K") fresh)))) <= 1.
Proof.
  intros H.
  assert (Hrt : In "deno" runtimes) by (right; right; left; reflexivity).
  split; [exact Hrt |].
  destruct (get_calls_only_get H "deno" Hrt) as (hget & Hg & Hall).
  assert (Heq : hget = getRuntimeMap_deno H).
  { apply (lookup_agree (getRuntimeMap H) "deno"); [exact Hg |].
    exact (proj2 (proj2 (three_keys_present (getRuntimeMap_node H)
                           (getRuntimeMap_bun H) (getRuntimeMap_deno H)))). }
  subst hget. exact (proj1 (proj2 (Hall "K" fresh))).
Defined.

(** ** The payload of a successful get *)

(** X3. On every runtime of the tables, when the get handler returns a
    success its payload is the answer of the adapter's get, as it is: the
    last recorded call is the adapter's get for the key, and the payload is
    what that call returned in the world the calls before it had left.  So
    absent stays absent and the empty string stays the empty string. *)
Theorem get_payload_is_adapter_answer {W} (H : Host W) (rt : string) :
  In rt runtimes ->
  exists hget,
    getRuntimeMap H !! rt = Some hget /\
    forall (key : string) (w : W) (r : Maybe string),
      value_of (run (hget key) w) = Some (Ok r) ->
      exists before,
        calls (snd (run (hget key) w)) = before ++ [CallEnvGet key] /\
        fst (Commons_env_get H key (replay H before w)) = inr r.
Proof.
  intros Hrt.
  destruct (three_keys_present (getRuntimeMap_node H) (getRuntimeMap_bun H)
              (getRuntimeMap_deno H)) as (Hg1 & Hg2 & Hg3).
  destruct (runtimes_cases rt Hrt) as [-> | [-> | ->]]; clear Hrt.
  - exists (getRuntimeMap_node H). split; [assumption |]. intros key w r.
    clear Hg1 Hg2 Hg3. unfold value_of, replay, effect_of. unfold_handlers.
    destruct (isSatisfiesVersion H); simpl; [| discriminate].
    destruct (negb (Nat.eqb (List.length (envFileSpecified H)) 0)); simpl.
    + destruct (Commons_env_get H key w) as [[e | r'] w1] eqn:Eget; simpl;
        [discriminate |].
      intros Heq; inversion Heq; subst. exists []. simpl. now rewrite Eget.
    + destruct (Utils_loadEnvIfNeeded H w) as [[e | u] w1] eqn:Eload; simpl;
        [discriminate |].
      destruct (Commons_env_get H key w1) as [[e | r'] w2] eqn:Eget; simpl;
        [discriminate |].
      intros Heq; inversion Heq; subst. exists [CallLoadEnvIfNeeded]. simpl.
      now rewrite Eload; simpl; rewrite Eget.
  - exists (getRuntimeMap_bun H). split; [assumption |]. intros key w r.
    clear Hg1 Hg2 Hg3. unfold value_of, replay, effect_of. unfold_handlers.
    destruct (isSatisfiesVersion H); simpl; [| discriminate].
    destruct (Commons_env_get H key w) as [[e | r'] w1] eqn:Eget; simpl;
      [discriminate |].
    intros Heq; inversion Heq; subst. exists []. simpl. now rewrite Eget.
  - exists (getRuntimeMap_deno H). split; [assumption |]. intros key w r.
    clear Hg1 Hg2 Hg3. unfold value_of, replay, effect_of. unfold_handlers.
    destruct (isSatisfiesVersion H); simpl; [| discriminate].
    destruct (Commons_permissions H "read" w) as [[e | permission] w1] eqn:Eperm; simpl;
      [discriminate |].
    destruct (String.eqb permission "granted"); simpl.
    + destruct (Utils_loadEnvIfNeeded H w1) as [[e | u] w2] eqn:Eload; simpl;
        [discriminate |].
      destruct (Commons_env_get H key w2) as [[e | r'] w3] eqn:Eget; simpl;
        [discriminate |].
      intros Heq; inversion Heq; subst.
      exists [CallPermissions "read"; CallLoadEnvIfNeeded]. simpl.
      now rewrite Eperm; simpl; rewrite Eload; simpl; rewrite Eget.
    + destruct (Commons_env_get H key w1) as [[e | r'] w2] eqn:Eget; simpl;
        [discriminate |].
      intros Heq; inversion Heq; subst.
      exists [CallPermissions "read"]. simpl.
      now rewrite Eperm; simpl; rewrite Eget.
Qed.

Lemma get_payload_is_adapter_answer_witness :
  let H := TableHost "bun" new_enough [] (gate_answers "granted") (load_file []) in
  let p := {| table := {["K" := ""]}; memory := false |} in
  In "bun" runtimes /\
  value_of (run (getRuntimeMap_bun H "K") p) = Some (Ok (Some "")) /\
  exists before,
    calls (snd (run (getRuntimeMap_bun H "K") p)) = before ++ [CallEnvGet "K"] /\
    fst (Commons_env_get H "K" (replay H before p)) = inr (Some "").
Proof.
  intros H p.
  assert (Hrt : In "bun" runtimes) by (right; left; reflexivity).
  assert (Hok : value_of (run (getRuntimeMap_bun H "K") p) = Some (Ok (Some "")))
    by reflexivity.
  split; [exact Hrt |]. split; [exact Hok |].
  destruct (get_payload_is_adapter_answer H "bun" Hrt) as (hget & Hg & Hall).
  assert (Heq : hget = getRuntimeMap_bun H).
  { apply (lookup_agree (getRuntimeMap H) "bun"); [exact Hg |].
    exact (proj1 (proj2 (three_keys_present (getRuntimeMap_node H)
                           (getRuntimeMap_bun H) (getRuntimeMap_deno H)))). }
  subst hget. exact (Hall "K" p (Some "") Hok).
Defined.

(** ** When set and delete succeed, and how they fail *)

(** Taking apart what is known of an outcome, then closing the goal. *)
Ltac outcome_cases :=
  repeat match goal with
         | Hx : _ /\ _ |- _ => destruct Hx
         | Hx : exists _, _ |- _ => destruct Hx
         | Hx : Some _ = Some _ |- _ => inversion Hx; subst; clear Hx
         | Hx : inl _ = inl _ |- _ => inversion Hx; subst; clear Hx
         | Hx : inr _ = inr _ |- _ => inversion Hx; subst; clear Hx
         end;
  subst; try congruence; eauto.



(** ** Which startup arguments count as the env-file flag *)

Lemma prefix_app (p s : string) :
  String.prefix p s = true <-> exists rest, s = (p ++ rest)%string.
Proof.
  revert s. induction p as [| a p IH]; intros s.
  - split; [intros _; now exists s | intros _; now destruct s].
  - destruct s as [| b s].
    + split; [discriminate | intros (rest & Hr); discriminate Hr].
    + cbn [String.prefix]. destruct (ascii_dec a b) as [<- | Hne].
      * rewrite IH. split; intros (rest & Hr); exists rest.
        -- now rewrite Hr.
        -- change (String a p ++ rest)%string with (String a (p ++ rest)%string) in Hr.
           now inversion Hr.
      * split; [discriminate |]. intros (rest & Hr).
        change (String a p ++ rest)%string with (String a (p ++ rest)%string) in Hr.
        inversion Hr. congruence.
Qed.

Lemma flag_or_not {W} (H : Host W) :
  (exists arg, In arg (process_execArgv H) /\ String.prefix "--env-file=" arg = true) \/
  (forall arg, In arg (process_execArgv H) -> String.prefix "--env-file=" arg = false).
Proof.
  destruct (List.existsb (String.prefix "--env-file=") (process_execArgv H)) eqn:Hex.
  - left. apply List.existsb_exists in Hex. exact Hex.
  - right. intros arg Hin.
    destruct (String.prefix "--env-file=" arg) eqn:Hp; [| reflexivity].
    assert (Hc : List.existsb (String.prefix "--env-file=") (process_execArgv H) = true).
    { apply List.existsb_exists. now exists arg. }
    congruence.
Qed.

(** X5. Past the version gate, the node get handler goes straight to the
    adapter's get (no loader call) exactly when some startup argument is
    [--env-file=] followed by anything, the empty string included; how many
    such arguments there are and where they stand does not matter, and an
    argument that only resembles the flag does not count. *)
Theorem node_flag_branch_iff {W} (H : Host W) (key : string) (w : W) :
  isSatisfiesVersion H = true ->
  (calls (snd (run (getRuntimeMap_node H key) w)) = [CallEnvGet key]
     <-> exists rest, In ("--env-file=" ++ rest)%string (process_execArgv H)).
Proof.
  intros Hgate.
  destruct (flag_or_not H) as [Hflag | Hnone].
  - split.
    + intros _. destruct Hflag as (arg & Hin & Hp).
      apply prefix_app in Hp as (rest & ->). now exists rest.
    + intros _. apply envFileSpecified_some in Hflag.
      unfold_handlers. rewrite Hgate, Hflag. simpl.
      destruct (Commons_env_get H key w) as [[e | r] w']; reflexivity.
  - split.
    + pose proof (envFileSpecified_none H Hnone) as Hno.
      unfold_handlers. rewrite Hgate, Hno. simpl.
      destruct (Utils_loadEnvIfNeeded H w) as [[e | u] w1]; simpl; [discriminate |].
      destruct (Commons_env_get H key w1) as [[e | r] w2]; discriminate.
    + intros (rest & Hin). specialize (Hnone _ Hin).
      assert (Hp : String.prefix "--env-file=" ("--env-file=" ++ rest)%string = true)
        by (apply prefix_app; now exists rest).
      congruence.
Qed.

Lemma node_flag_branch_iff_witness :
  let H := TableHost "node" new_enough ["--inspect"; "--env-file="; "--env-file=.env"]
             (gate_answers "granted") (load_file [("K", "file")]) in
  isSatisfiesVersion H = true /\
  calls (snd (run (getRuntimeMap_node H "K") fresh)) = [CallEnvGet "K"].
Proof.
  intros H. split; [reflexivity |].
  apply (proj2 (node_flag_branch_iff H "K" fresh eq_refl)).
  exists "". right; left; reflexivity.
Defined.

(** ** Telling the two version errors apart *)

Lemma list_ascii_app (a b : string) :
  list_ascii_of_string (a ++ b)%string
    = (list_ascii_of_string a ++ list_ascii_of_string b)%list.
Proof.
  induction a as [| c a IH]; [reflexivity |].
  change (String c a ++ b)%string with (String c (a ++ b)%string).
  cbn [list_ascii_of_string]. now rewrite IH.
Qed.

Lemma append_cancel_r (a b t : string) :
  (a ++ t)%string = (b ++ t)%string -> a = b.
Proof.
  intros Heq.
  apply (f_equal list_ascii_of_string) in Heq.
  rewrite !list_ascii_app in Heq.
  apply List.app_inv_tail in Heq.
  rewrite <- (string_of_list_ascii_of_string a), <- (string_of_list_ascii_of_string b).
  now rewrite Heq.
Qed.

(** X6. The version error of the node profile and the one of the generic
    profile have the same [name], "VersionError"; a caller can tell them
    apart by their message exactly when the version the host reports as
    required is not "20.6.0". *)
Theorem version_errors_told_apart {W} (H : Host W) :
  name (VersionError (nodeVersionError H)) = name (VersionError (genericVersionError H)) /\
  (message (VersionError (nodeVersionError H))
     = message (VersionError (genericVersionError H))
   <-> require (Commons_runtime_version H) = "20.6.0").
Proof.
  split; [reflexivity |].
  unfold message, errorText. cbn [runtime version require current
    nodeVersionError genericVersionError version_].
  split.
  - intros Heq. apply String.app_inj in Heq. apply String.app_inj in Heq.
    apply append_cancel_r in Heq. now symmetry.
  - intros ->. reflexivity.
Qed.

(** ** Set and delete do not depend on the runtime *)

Lemma set_delete_with_runtime {W} (H : Host W) (rt : string)
    (key value : string) (s : state W) :
  isSatisfiesVersion H = true ->
  setRuntimeMap_node (with_runtime H rt) key value s = setRuntimeMap_node H key value s /\
  deleteRuntimeMap_node (with_runtime H rt) key s = deleteRuntimeMap_node H key s.
Proof.
  intros Hgate. unfold_handlers.
  change (isSatisfiesVersion (with_runtime H rt)) with (isSatisfiesVersion H).
  rewrite Hgate. split; reflexivity.
Qed.

Lemma facade_set_delete_with_runtime {W} (H : Host W) (rt : string)
    (key value : string) (s : state W) :
  In rt runtimes ->
  isSatisfiesVersion H = true ->
  UniEnv_set (with_runtime H rt) key value s
    = (r <- setRuntimeMap_node H key value ;; ret (Returned r)) s /\
  UniEnv_delete (with_runtime H rt) key s
    = (r <- deleteRuntimeMap_node H key ;; ret (Returned r)) s.
Proof.
  intros Hrt Hgate.
  destruct (set_delete_with_runtime H rt key value s Hgate) as (Hset & Hdel).
  assert (Hfacade :
    UniEnv_set (with_runtime H rt) key value
      = (r <- setRuntimeMap_node (with_runtime H rt) key value ;; ret (Returned r)) /\
    UniEnv_delete (with_runtime H rt) key
      = (r <- deleteRuntimeMap_node (with_runtime H rt) key ;; ret (Returned r))).
  { clear Hset Hdel. unfold UniEnv_set, UniEnv_delete.
    destruct (runtimes_cases rt Hrt) as [-> | [-> | ->]]; split.
    - apply (dispatch_own (with_runtime H "node") _ (fun h => h key value)).
      apply three_keys_present.
    - apply (dispatch_own (with_runtime H "node") _ (fun h => h key)).
      apply three_keys_present.
    - apply (dispatch_own (with_runtime H "bun") _ (fun h => h key value)
               (setRuntimeMap_bun (with_runtime H "bun"))).
      apply three_keys_present.
    - apply (dispatch_own (with_runtime H "bun") _ (fun h => h key)
               (deleteRuntimeMap_bun (with_runtime H "bun"))).
      apply three_keys_present.
    - apply (dispatch_own (with_runtime H "deno") _ (fun h => h key value)
               (setRuntimeMap_deno (with_runtime H "deno"))).
      apply three_keys_present.
    - apply (dispatch_own (with_runtime H "deno") _ (fun h => h key)
               (deleteRuntimeMap_deno (with_runtime H "deno"))).
      apply three_keys_present. }
  destruct Hfacade as (-> & ->).
  unfold bind. rewrite Hset, Hdel. split; reflexivity.
Qed.

(** X7. Past the version gate, set and delete through the facade do the same
    on node, bun and deno: with the runtime identity changed to another of
    the three and everything else of the host the same, each of them gives
    the same result, the same world and the same calls. *)
Theorem set_delete_runtime_independent {W} (H : Host W) (rt1 rt2 : string)
    (key value : string) (s : state W) :
  In rt1 runtimes -> In rt2 runtimes ->
  isSatisfiesVersion H = true ->
  UniEnv_set (with_runtime H rt1) key value s
    = UniEnv_set (with_runtime H rt2) key value s /\
  UniEnv_delete (with_runtime H rt1) key s
    = UniEnv_delete (with_runtime H rt2) key s.
Proof.
  intros Hrt1 Hrt2 Hgate.
  destruct (facade_set_delete_with_runtime H rt1 key value s Hrt1 Hgate) as (Hs1 & Hd1).
  destruct (facade_set_delete_with_runtime H rt2 key value s Hrt2 Hgate) as (Hs2 & Hd2).
  split; congruence.
Qed.

Lemma set_delete_runtime_independent_witness :
  let H := TableHost "node" new_enough [] (gate_answers "granted")
             (load_file [("K", "file")]) in
  let s := {| world := fresh; trace := [] |} in
  In "bun" runtimes /\ In "deno" runtimes /\ isSatisfiesVersion H = true /\
  UniEnv_set (with_runtime H "bun") "K" "v" s = UniEnv_set (with_runtime H "deno") "K" "v" s.
Proof.
  intros H s.
  assert (Hb : In "bun" runtimes) by (right; left; reflexivity).
  assert (Hd : In "deno" runtimes) by (right; right; left; reflexivity).
  split; [exact Hb |]. split; [exact Hd |]. split; [reflexivity |].
  exact (proj1 (set_delete_runtime_independent H "bun" "deno" "K" "v" s Hb Hd eq_refl)).
Defined.

(** ** What a version error from get means *)

(** X8. On bun and deno the get handler returns a version error exactly when
    the version gate fails, and it is the one of the generic profile.  On
    node it also returns one, the one of the node profile, when the gate
    passes, some startup argument is [--env-file=] followed by anything, and
    the adapter's get throws; and in no other case. *)
Theorem get_version_error_meaning {W} (H : Host W) (key : string) (w : W)
    (prop : versionErrorProp) :
  (value_of (run (getRuntimeMap_bun H key) w) = Some (Ng (VersionError prop))
     <-> isSatisfiesVersion H = false /\ prop = genericVersionError H) /\
  (value_of (run (getRuntimeMap_deno H key) w) = Some (Ng (VersionError prop))
     <-> isSatisfiesVersion H = false /\ prop = genericVersionError H) /\
  (value_of (run (getRuntimeMap_node H key) w) = Some (Ng (VersionError prop))
     <-> (isSatisfiesVersion H = false /\ prop = genericVersionError H) \/
         (isSatisfiesVersion H = true /\
          (exists rest, In ("--env-file=" ++ rest)%string (process_execArgv H)) /\
          (exists t, fst (Commons_env_get H key w) = inl t) /\
          prop = nodeVersionError H)).
Proof.
  split; [| split].
  - unfold value_of. unfold_handlers.
    destruct (isSatisfiesVersion H); simpl.
    + destruct (Commons_env_get H key w) as [[e | r] w1]; simpl;
        split; intros; outcome_cases.
    + split; intros; outcome_cases.
  - unfold value_of. unfold_handlers.
    destruct (isSatisfiesVersion H); simpl; [| split; intros; outcome_cases].
    destruct (Commons_permissions H "read" w) as [[e | permission] w1]; simpl;
      [split; intros; outcome_cases |].
    destruct (String.eqb permission "granted"); simpl.
    + destruct (Utils_loadEnvIfNeeded H w1) as [[e | u] w2]; simpl;
        [split; intros; outcome_cases |].
      destruct (Commons_env_get H key w2) as [[e | r] w3]; simpl;
        split; intros; outcome_cases.
    + destruct (Commons_env_get H key w1) as [[e | r] w2]; simpl;
        split; intros; outcome_cases.
  - destruct (flag_or_not H) as [Hflag | Hnone].
    + assert (Hrest : exists rest, In ("--env-file=" ++ rest)%string (process_execArgv H)).
      { destruct Hflag as (arg & Hin & Hp).
        apply prefix_app in Hp as (rest & ->). now exists rest. }
      apply envFileSpecified_some in Hflag.
      unfold value_of. unfold_handlers. rewrite Hflag.
      destruct (isSatisfiesVersion H); simpl.
      * destruct (Commons_env_get H key w) as [[e | r] w1]; simpl; split.
        -- intros Heq. inversion Heq; subst. right. repeat split; eauto.
        -- intros [[Hc _] | (_ & _ & _ & ->)]; [discriminate | reflexivity].
        -- discriminate.
        -- intros [[Hc _] | (_ & _ & (t & Ht) & _)]; discriminate.
      * split.
        -- intros Heq. inversion Heq; subst. now left.
        -- intros [[_ ->] | (Hc & _)]; [reflexivity | discriminate].
    + assert (Hrest : ~ exists rest, In ("--env-file=" ++ rest)%string (process_execArgv H)).
      { intros (rest & Hin). specialize (Hnone _ Hin).
        assert (Hp : String.prefix "--env-file=" ("--env-file=" ++ rest)%string = true)
          by (apply prefix_app; now exists rest).
        congruence. }
      apply envFileSpecified_none in Hnone.
      unfold value_of. unfold_handlers. rewrite Hnone.
      destruct (isSatisfiesVersion H); simpl.
      * destruct (Utils_loadEnvIfNeeded H w) as [[e | u] w1]; simpl.
        { split; [discriminate |].
          intros [[Hc _] | (_ & Hr & _)]; [discriminate | contradiction]. }
        destruct (Commons_env_get H key w1) as [[e | r] w2]; simpl;
          (split; [discriminate |]);
          intros [[Hc _] | (_ & Hr & _)]; (discriminate || contradiction).
      * split.
        -- intros Heq. inversion Heq; subst. now left.
        -- intros [[_ ->] | (Hc & _)]; [reflexivity | discriminate].
Qed.
